(** * The assistant of personal-assistant-API: title generation, the reply
      loop and tool dispatch

    A shallow embedding of

    - [internal/chat/assistant/assistant.go]: [Title], and [Reply] with the
      tool calls handled by a [switch] inside the loop (module [assistant]);
    - the [tools] package: [Tool], [Definitions], [Dispatch] and the weather,
      date and holidays adapters (module [tools]);
    - the assistant.go that imports the [tools] package, whose [Reply] hands
      every tool call to [tools.Dispatch] (module [assistant_tools]; its
      [Title] is the same function);
    - the mock assistant of [internal/chat/assistant_mock_test.go] (module
      [chat]).

    Go strings are byte strings: they are modelled by [string], whose
    characters are the 256 values of [ascii].  Everything outside the process
    (the model backend, the weather service, the clock, the calendar server,
    the environment variables) is a field of [Env], a deterministic function
    of an explicit [World] that is threaded through the calls.  Logging
    ([slog]) and the [context.Context] argument are left out. *)

From Stdlib Require Import String Ascii List ZArith Lia Bool Arith.
From Stdlib Require Import DecimalString.
Import ListNotations.

Set Implicit Arguments.

Local Open Scope string_scope.
Local Open Scope list_scope.

(* ================================================================== *)
(** ** The functions of Go's [strings] package that the code uses *)
(* ================================================================== *)

Module strings.

Definition TAB : ascii := "009"%char.
Definition LF : ascii := "010"%char.
Definition VT : ascii := "011"%char.
Definition FF : ascii := "012"%char.
Definition CR : ascii := "013"%char.
Definition SP : ascii := " "%char.
Definition DQUOTE : ascii := "034"%char.
Definition SQUOTE : ascii := "'"%char.
Definition DASH : ascii := "-"%char.

(** [len(s)]: the number of bytes. *)
Definition len (s : string) : nat := String.length s.

(** Membership of a byte in a cutset. *)
Fixpoint inCutset (cutset : string) (c : ascii) : bool :=
  match cutset with
  | EmptyString => false
  | String d rest => Ascii.eqb c d || inCutset rest c
  end.

(** [strings.ReplaceAll(s, old, new)] for a pattern [old] of one byte (the
    only call has the pattern "\n"). *)
Fixpoint ReplaceAll (s : string) (old : ascii) (new : string) : string :=
  match s with
  | EmptyString => EmptyString
  | String c rest =>
      if Ascii.eqb c old then (new ++ ReplaceAll rest old new)%string
      else String c (ReplaceAll rest old new)
  end.

(** [strings.TrimLeft], [strings.TrimRight] and [strings.Trim] for a cutset
    of ASCII bytes, where Go trims byte by byte. *)
Fixpoint TrimLeft (s cutset : string) : string :=
  match s with
  | EmptyString => EmptyString
  | String c rest => if inCutset cutset c then TrimLeft rest cutset else s
  end.

Fixpoint TrimRight (s cutset : string) : string :=
  match s with
  | EmptyString => EmptyString
  | String c rest =>
      match TrimRight rest cutset with
      | EmptyString =>
          if inCutset cutset c then EmptyString else String c EmptyString
      | t => String c t
      end
  end.

Definition Trim (s cutset : string) : string :=
  TrimLeft (TrimRight s cutset) cutset.

(** [s[:n]] for [n <= len(s)]. *)
Definition slice_to (s : string) (n : nat) : string := substring 0 n s.

(** The ASCII white space of [strings.TrimSpace]. *)
Definition asciiSpace (c : ascii) : bool :=
  Ascii.eqb c TAB || Ascii.eqb c LF || Ascii.eqb c VT || Ascii.eqb c FF
  || Ascii.eqb c CR || Ascii.eqb c SP.

Definition byte_is (c : ascii) (n : nat) : bool :=
  Nat.eqb (nat_of_ascii c) n.

Definition byte_in (c : ascii) (lo hi : nat) : bool :=
  Nat.leb lo (nat_of_ascii c) && Nat.leb (nat_of_ascii c) hi.

(** [strings.TrimSpace(s) == ""]: [s] is a concatenation of UTF-8 encodings
    of white space runes ([unicode.IsSpace]): the six ASCII ones, U+0085,
    U+00A0, U+1680, U+2000..U+200A, U+2028, U+2029, U+202F, U+205F and
    U+3000.  A byte that starts no such encoding is kept by TrimSpace. *)
Fixpoint TrimSpace_is_empty (s : string) : bool :=
  match s with
  | EmptyString => true
  | String c rest =>
      if asciiSpace c then TrimSpace_is_empty rest
      else
        match rest with
        | String d rest1 =>
            if byte_is c 194 && (byte_is d 133 || byte_is d 160)
            then TrimSpace_is_empty rest1
            else
              match rest1 with
              | String e rest2 =>
                  if (byte_is c 225 && byte_is d 154 && byte_is e 128)
                     || (byte_is c 226 && byte_is d 128
                         && (byte_in e 128 138 || byte_is e 168
                             || byte_is e 169 || byte_is e 175))
                     || (byte_is c 226 && byte_is d 129 && byte_is e 159)
                     || (byte_is c 227 && byte_is d 128 && byte_is e 128)
                  then TrimSpace_is_empty rest2
                  else false
              | EmptyString => false
              end
        | EmptyString => false
        end
  end.

(** [strings.Join(elems, sep)]. *)
Fixpoint Join (elems : list string) (sep : string) : string :=
  match elems with
  | [] => EmptyString
  | [e] => e
  | e :: rest => (e ++ sep ++ Join rest sep)%string
  end.

(** First and last byte of a string, to state what trimming achieves. *)
Definition first_byte (s : string) : option ascii :=
  match s with
  | EmptyString => None
  | String c _ => Some c
  end.

Fixpoint last_byte (s : string) : option ascii :=
  match s with
  | EmptyString => None
  | String c EmptyString => Some c
  | String _ rest => last_byte rest
  end.

Fixpoint contains_byte (s : string) (c : ascii) : bool :=
  match s with
  | EmptyString => false
  | String d rest => Ascii.eqb d c || contains_byte rest c
  end.

(** [strings.Repeat] of a one-byte string. *)
Fixpoint Repeat (c : ascii) (n : nat) : string :=
  match n with
  | O => EmptyString
  | S n' => String c (Repeat c n')
  end.

End strings.

(* ================================================================== *)
(** ** Errors *)
(* ================================================================== *)

(** A Go [error] value.  [errors_New] is [errors.New(text)], [fmt_Errorf]
    is [fmt.Errorf(prefix + "%w", err)], and [external] is an error made by
    a collaborator (the OpenAI client, [encoding/json], the HTTP client). *)
Inductive error : Type :=
| errors_New (text : string)
| fmt_Errorf (prefix : string) (wrapped : error)
| external (text : string).

(** [err.Error()]. *)
Fixpoint Error (e : error) : string :=
  match e with
  | errors_New text => text
  | fmt_Errorf prefix wrapped => (prefix ++ Error wrapped)%string
  | external text => text
  end.

(** The pair [(T, error)] a Go function returns: a value with a nil error,
    or the zero value with an error. *)
Inductive result (A : Type) : Type :=
| Ok (a : A)
| Err (e : error).

Arguments Ok {A} a.
Arguments Err {A} e.

(* ================================================================== *)
(** ** The conversation model ([internal/chat/model]) *)
(* ================================================================== *)

Module model.

(** [type Role string] with its two constants. *)
Definition Role : Type := string.
Definition RoleUser : Role := "user".
Definition RoleAssistant : Role := "assistant".

(** The fields of [model.Message] and [model.Conversation] that the
    assistant reads (the identifiers and time stamps are not read). *)
Record Message : Type := { Role_ : Role; Content : string }.

Record Conversation : Type := { Messages : list Message }.

End model.

(* ================================================================== *)
(** ** The part of the OpenAI client's types that the code touches *)
(* ================================================================== *)

Module openai.

(** [ChatCompletionMessageToolCallUnion]: the call id, the variant tag and
    the name and payload of both variants. *)
Record ToolCall : Type := {
  ID : string;
  Type_ : string;
  Function_Name : string;
  Function_Arguments : string;
  Custom_Name : string;
  Custom_Input : string
}.

(** [ChatCompletionMessage]: the assistant's answer in a choice. *)
Record ChatCompletionMessage : Type := {
  Content : string;
  ToolCalls : list ToolCall
}.

Record Choice : Type := { Message : ChatCompletionMessage }.

Record ChatCompletion : Type := { Choices : list Choice }.

(** [ChatCompletionMessageParamUnion]: the entries of the message history,
    by the constructor that made them.  [ToParam m] is [m.ToParam()], the
    assistant's message with its tool calls. *)
Inductive MessageParam : Type :=
| SystemMessage (content : string)
| UserMessage (content : string)
| AssistantMessage (content : string)
| ToolMessage (content : string) (tool_call_id : string)
| ToParam (m : ChatCompletionMessage).

(** [ChatCompletionFunctionTool(FunctionDefinitionParam{...})]: the name and
    the description; the JSON schema of the parameters is not modelled. *)
Record ToolParam : Type := { Name : string; Description : string }.

Record ChatCompletionNewParams : Type := {
  Model : string;
  Messages : list MessageParam;
  Tools : list ToolParam
}.

Definition ChatModelGPT4o : string := "gpt-4o".
Definition ChatModelGPT4_1 : string := "gpt-4.1".

End openai.

(* ================================================================== *)
(** ** State passing *)
(* ================================================================== *)

(** A computation that reads and updates a state of type [S]. *)
Definition state (S A : Type) : Type := S -> A * S.

Definition ret {S A : Type} (a : A) : state S A := fun s => (a, s).

Definition bind {S A B : Type} (m : state S A) (k : A -> state S B)
  : state S B :=
  fun s => let (a, s') := m s in k a s'.

Notation "x <- m ;; k" := (bind m (fun x => k))
  (at level 61, m at next level, right associativity).

(* ================================================================== *)
(** ** The collaborators *)
(* ================================================================== *)

(** The anonymous struct the weather arguments are decoded into. *)
Record WeatherArgs : Type := { Location : string; ForecastDays : Z }.

(** The anonymous struct the holiday arguments are decoded into. *)
Record HolidayPayload (Time : Type) : Type := {
  BeforeDate : Time;
  AfterDate : Time;
  MaxCount : Z
}.

(** Everything the assistant calls but does not implement.  Calls that
    perform I/O run in [state World]; decoding and formatting are functions.
    [Summary_Value event] is [event.GetProperty(ics.ComponentPropertySummary).Value],
    taken as total: an event without a summary is outside the model.
    [LoadCalendar] is the function assistant.go calls, [ParseCalendarFromUrl]
    is [ics.ParseCalendarFromUrl] followed by [cal.Events()], which the tools
    package calls; [TimeZone_Handle] is the body of the time zone adapter. *)
Record Env (World : Type) : Type := {
  Forecast : Type;
  CurrentWeather : Type;
  VEvent : Type;
  Time : Type;
  Completions_New :
    openai.ChatCompletionNewParams -> state World (result openai.ChatCompletion);
  json_Unmarshal_weather : string -> result WeatherArgs;
  GetForecast : string -> Z -> state World (result Forecast);
  GetCurrentWeather : string -> state World (result CurrentWeather);
  FormatForecast : Forecast -> string;
  FormatCurrentWeather : CurrentWeather -> string;
  Now_RFC3339 : state World string;
  Getenv : string -> World -> string;
  LoadCalendar : string -> state World (result (list VEvent));
  ParseCalendarFromUrl : string -> state World (result (list VEvent));
  json_Unmarshal_holidays : string -> result (HolidayPayload Time);
  GetAllDayStartAt : VEvent -> result Time;
  IsZero : Time -> bool;
  After : Time -> Time -> bool;
  Before : Time -> Time -> bool;
  Format_DateOnly : Time -> string;
  Summary_Value : VEvent -> string;
  TimeZone_Handle : string -> state World (result string)
}.

(** What the process did to the outside, in order: the requests sent to the
    model backend and the runs of tool code that reach a collaborator. *)
Inductive Event : Type :=
| BackendCall (params : openai.ChatCompletionNewParams)
| ToolRun (name args : string).

(** The state of one call of the assistant: the world and the record of the
    calls made so far. *)
Record St (World : Type) : Type := { world : World; calls : list Event }.

(** Run a collaborator on the world and record the call. *)
Definition perform {World A : Type} (ev : Event) (op : state World A)
  : state (St World) A :=
  fun st =>
    let (a, w) := op (world st) in
    (a, {| world := w; calls := calls st ++ [ev] |}).

Definition is_backend_call (ev : Event) : bool :=
  match ev with
  | BackendCall _ => true
  | ToolRun _ _ => false
  end.

(** The number of requests sent to the model backend. *)
Definition backend_calls (evs : list Event) : nat :=
  List.length (filter is_backend_call evs).

(** A record of calls in which no request went to the backend. *)
Definition tool_events (evs : list Event) : Prop :=
  Forall (fun ev => is_backend_call ev = false) evs.

(* ================================================================== *)
(** ** Package [assistant]: assistant.go with the [switch] *)
(* ================================================================== *)

Module assistant.

Import strings.

Section WithEnv.

Context {World : Type} (env : Env World).

(** *** [Title] (the same in both versions of assistant.go) *)

Definition title_prompt : string :=
  "You are a title generator. Extract the main topic from the user's message and create a short, descriptive title. Do NOT answer the question. Examples: 'What is the weather like in Barcelona?' → 'Weather in Barcelona'. Maximum 80 characters, no quotes.".

(** The cutset of the call of [strings.Trim]: space, tab, carriage return,
    line feed, dash, double quote and single quote. *)
Definition title_cutset : string :=
  String SP (String TAB (String CR (String LF (String DASH
    (String DQUOTE (String SQUOTE EmptyString)))))).

(** Lines 56-64: what [Title] does to the content the backend returned. *)
Definition title_of_content (content : string) : string :=
  let title := content in
  let title := ReplaceAll title LF " " in
  let title := Trim title title_cutset in
  if Nat.ltb 80 (len title) then slice_to title 80 else title.

Definition Title (conv : model.Conversation) : state (St World) (result string) :=
  if Nat.eqb (List.length (model.Messages conv)) 0 then
    ret (Ok "An empty conversation")
  else
    let msgs :=
      [openai.SystemMessage title_prompt]
      ++ map (fun m => openai.UserMessage (model.Content m))
             (model.Messages conv) in
    let params :=
      {| openai.Model := openai.ChatModelGPT4o;
         openai.Messages := msgs;
         openai.Tools := [] |} in
    r <- perform (BackendCall params) (Completions_New env params) ;;
    match r with
    | Err err => ret (Err err)
    | Ok resp =>
        match openai.Choices resp with
        | [] =>
            ret (Err (errors_New
                        "empty response from OpenAI for title generation"))
        | choice :: _ =>
            if TrimSpace_is_empty (openai.Content (openai.Message choice)) then
              ret (Err (errors_New
                          "empty response from OpenAI for title generation"))
            else
              ret (Ok (title_of_content
                         (openai.Content (openai.Message choice))))
        end
    end.

(** *** [Reply] of internal/chat/assistant/assistant.go: the tool calls are
    handled by a [switch] in the loop *)

Definition reply_prompt : string :=
  "You are a helpful, concise AI assistant. Provide accurate, safe, and clear responses.".

(** Lines 74-85: the history starts with the system message, then the user
    and assistant messages of the conversation in order; a message of another
    role is skipped. *)
Definition seed_history (conv : model.Conversation) : list openai.MessageParam :=
  fold_left
    (fun msgs m =>
       if String.eqb (model.Role_ m) model.RoleUser then
         msgs ++ [openai.UserMessage (model.Content m)]
       else if String.eqb (model.Role_ m) model.RoleAssistant then
         msgs ++ [openai.AssistantMessage (model.Content m)]
       else msgs)
    (model.Messages conv)
    [openai.SystemMessage reply_prompt].

(** Lines 91-137: the three tools advertised on every request. *)
Definition reply_tools : list openai.ToolParam :=
  [ {| openai.Name := "get_weather";
       openai.Description := "Get current weather or multi-day forecast for a given location. Use forecast_days for future weather predictions (1-10 days)." |};
    {| openai.Name := "get_today_date";
       openai.Description := "Get today's date and time in RFC3339 format" |};
    {| openai.Name := "get_holidays";
       openai.Description := "Gets local bank and public holidays. Each line is a single holiday in the format 'YYYY-MM-DD: Holiday Name'." |} ].

Definition default_calendar_link : string :=
  "https://www.officeholidays.com/ics/spain/catalonia".

(** Lines 212-232: the loop that filters and formats the holidays;
    [holidays] is the slice built so far. *)
Fixpoint holiday_lines (payload : HolidayPayload (Time env))
    (events : list (VEvent env)) (holidays : list string) : list string :=
  match events with
  | [] => holidays
  | event :: rest =>
      match GetAllDayStartAt env event with
      | Err _ => holiday_lines payload rest holidays
      | Ok date =>
          if Z.ltb 0 (MaxCount payload)
             && Z.leb (MaxCount payload) (Z.of_nat (List.length holidays))
          then holidays
          else if negb (IsZero env (BeforeDate payload))
                  && After env date (BeforeDate payload)
          then holiday_lines payload rest holidays
          else if negb (IsZero env (AfterDate payload))
                  && Before env date (AfterDate payload)
          then holiday_lines payload rest holidays
          else
            holiday_lines payload rest
              (holidays
               ++ [(Format_DateOnly env date ++ ": "
                    ++ Summary_Value env event)%string])
      end
  end.

(** [os.Getenv]: a read of the world that leaves no trace. *)
Definition getenv (name : string) : state (St World) string :=
  fun st => (Getenv env name (world st), st).

(** Lines 154-237: the [switch] on [call.Function.Name], as a function of the
    history [msgs].  A [break] leaves the switch, so every case but the
    default one ends with the history one message longer; the default case
    returns from [Reply] with an error. *)
Definition tool_call_switch (call : openai.ToolCall)
    (msgs : list openai.MessageParam)
  : state (St World) (result (list openai.MessageParam)) :=
  let name := openai.Function_Name call in
  let args := openai.Function_Arguments call in
  if String.eqb name "get_weather" then
    match json_Unmarshal_weather env args with
    | Err err =>
        ret (Ok (msgs ++ [openai.ToolMessage
                   ("failed to parse weather request: " ++ Error err)%string
                   (openai.ID call)]))
    | Ok weatherArgs =>
        if Z.ltb 0 (ForecastDays weatherArgs) then
          r <- perform (ToolRun name args)
                 (GetForecast env (Location weatherArgs)
                    (ForecastDays weatherArgs)) ;;
          match r with
          | Err err =>
              ret (Ok (msgs ++ [openai.ToolMessage
                         ("Failed to fetch weather forecast: "
                          ++ Error err)%string
                         (openai.ID call)]))
          | Ok forecast =>
              ret (Ok (msgs ++ [openai.ToolMessage
                         (FormatForecast env forecast) (openai.ID call)]))
          end
        else
          r <- perform (ToolRun name args)
                 (GetCurrentWeather env (Location weatherArgs)) ;;
          match r with
          | Err err =>
              ret (Ok (msgs ++ [openai.ToolMessage
                         ("Failed to fetch weather: " ++ Error err)%string
                         (openai.ID call)]))
          | Ok weather =>
              ret (Ok (msgs ++ [openai.ToolMessage
                         (FormatCurrentWeather env weather) (openai.ID call)]))
          end
    end
  else if String.eqb name "get_today_date" then
    now <- perform (ToolRun name args) (Now_RFC3339 env) ;;
    ret (Ok (msgs ++ [openai.ToolMessage now (openai.ID call)]))
  else if String.eqb name "get_holidays" then
    v <- getenv "HOLIDAY_CALENDAR_LINK" ;;
    let link := if String.eqb v "" then default_calendar_link else v in
    r <- perform (ToolRun name args) (LoadCalendar env link) ;;
    match r with
    | Err _ =>
        ret (Ok (msgs ++ [openai.ToolMessage "failed to load holiday events"
                            (openai.ID call)]))
    | Ok events =>
        match json_Unmarshal_holidays env args with
        | Err err =>
            ret (Ok (msgs ++ [openai.ToolMessage
                       ("failed to parse tool call arguments: "
                        ++ Error err)%string
                       (openai.ID call)]))
        | Ok payload =>
            ret (Ok (msgs ++ [openai.ToolMessage
                       (Join (holiday_lines payload events [])
                             (String LF EmptyString))
                       (openai.ID call)]))
        end
    end
  else
    ret (Err (errors_New ("unknown tool call: " ++ name)%string)).

(** Line 151: [for _, call := range message.ToolCalls]. *)
Fixpoint tool_calls_loop (tool_calls : list openai.ToolCall)
    (msgs : list openai.MessageParam)
  : state (St World) (result (list openai.MessageParam)) :=
  match tool_calls with
  | [] => ret (Ok msgs)
  | call :: rest =>
      r <- tool_call_switch call msgs ;;
      match r with
      | Err err => ret (Err err)
      | Ok msgs' => tool_calls_loop rest msgs'
      end
  end.

Definition reply_params (msgs : list openai.MessageParam)
  : openai.ChatCompletionNewParams :=
  {| openai.Model := openai.ChatModelGPT4_1;
     openai.Messages := msgs;
     openai.Tools := reply_tools |}.

(** Lines 87-246: [for i := 0; i < 15; i++ { ... }] and the return after it;
    [n] is the number of iterations left, [15 - i]. *)
Fixpoint reply_loop (n : nat) (msgs : list openai.MessageParam)
  : state (St World) (result string) :=
  match n with
  | O => ret (Err (errors_New "too many tool calls, unable to generate reply"))
  | S n' =>
      r <- perform (BackendCall (reply_params msgs))
             (Completions_New env (reply_params msgs)) ;;
      match r with
      | Err err => ret (Err err)
      | Ok resp =>
          match openai.Choices resp with
          | [] => ret (Err (errors_New "no choices returned by OpenAI"))
          | choice :: _ =>
              let message := openai.Message choice in
              if Nat.ltb 0 (List.length (openai.ToolCalls message)) then
                r <- tool_calls_loop (openai.ToolCalls message)
                       (msgs ++ [openai.ToParam message]) ;;
                match r with
                | Err err => ret (Err err)
                | Ok msgs' => reply_loop n' msgs'
                end
              else ret (Ok (openai.Content message))
          end
      end
  end.

Definition Reply (conv : model.Conversation) : state (St World) (result string) :=
  if Nat.eqb (List.length (model.Messages conv)) 0 then
    ret (Err (errors_New "conversation has no messages"))
  else reply_loop 15 (seed_history conv).

End WithEnv.

End assistant.

(* ================================================================== *)
(** ** The [tools] package *)
(* ================================================================== *)

Module tools.

Import strings.

Section WithEnv.

Context {World : Type} (env : Env World).

(** [type Tool interface { Name; Definition; Handle }].  [Handle] runs on the
    world; it has no access to the message history. *)
Record Tool : Type := {
  Name : string;
  Definition_ : openai.ToolParam;
  Handle : string -> state World (result string)
}.

(** [Definitions]: the definitions of the tools, in the order of the slice. *)
Definition Definitions (tools : list Tool) : list openai.ToolParam :=
  map Definition_ tools.

(** Lines 53-69 of [Dispatch]: the scan of the tools for the first one whose
    name is [functionName], and the message for a name that none has. *)
Fixpoint dispatch_scan (tools : list Tool) (call : openai.ToolCall)
    (functionName arguments : string)
  : state (St World) openai.MessageParam :=
  match tools with
  | [] =>
      ret (openai.ToolMessage ("Unknown tool: " ++ functionName)%string
             (openai.ID call))
  | tool :: rest =>
      if String.eqb (Name tool) functionName then
        r <- perform (ToolRun (Name tool) arguments) (Handle tool arguments) ;;
        match r with
        | Err err =>
            ret (openai.ToolMessage ("Tool failed: " ++ Error err)%string
                   (openai.ID call))
        | Ok res => ret (openai.ToolMessage res (openai.ID call))
        end
      else dispatch_scan rest call functionName arguments
  end.

(** [Dispatch]: always returns a tool message. *)
Definition Dispatch (tools : list Tool) (call : openai.ToolCall)
  : state (St World) openai.MessageParam :=
  if String.eqb (openai.Type_ call) "function" then
    dispatch_scan tools call
      (openai.Function_Name call) (openai.Function_Arguments call)
  else if String.eqb (openai.Type_ call) "custom" then
    dispatch_scan tools call
      (openai.Custom_Name call) (openai.Custom_Input call)
  else
    ret (openai.ToolMessage
           ("Unknown tool call type: " ++ openai.Type_ call)%string
           (openai.ID call)).

(** *** The adapters *)

Definition WeatherTool_Handle (args : string) : state World (result string) :=
  match json_Unmarshal_weather env args with
  | Err err => ret (Err (fmt_Errorf "invalid weather parameters: " err))
  | Ok params =>
      if Z.ltb 0 (ForecastDays params) then
        r <- GetForecast env (Location params) (ForecastDays params) ;;
        match r with
        | Err err =>
            ret (Err (fmt_Errorf "failed to fetch weather forecast: " err))
        | Ok forecast => ret (Ok (FormatForecast env forecast))
        end
      else
        r <- GetCurrentWeather env (Location params) ;;
        match r with
        | Err err => ret (Err (fmt_Errorf "failed to fetch weather: " err))
        | Ok w => ret (Ok (FormatCurrentWeather env w))
        end
  end.

Definition WeatherTool : Tool :=
  {| Name := "get_weather";
     Definition_ :=
       {| openai.Name := "get_weather";
          openai.Description := "Get current weather or multi-day forecast for a given location. Use forecast_days for future weather predictions (1-10 days)." |};
     Handle := WeatherTool_Handle |}.

Definition DateTool_Handle (args : string) : state World (result string) :=
  now <- Now_RFC3339 env ;;
  ret (Ok now).

Definition DateTool : Tool :=
  {| Name := "get_today_date";
     Definition_ :=
       {| openai.Name := "get_today_date";
          openai.Description := "Get today's date and time in RFC3339 format" |};
     Handle := DateTool_Handle |}.

(** [loadCalendar] of the holidays adapter. *)
Definition loadCalendar (link : string)
  : state World (result (list (VEvent env))) :=
  r <- ParseCalendarFromUrl env link ;;
  match r with
  | Err err => ret (Err (fmt_Errorf "failed to parse calendar: " err))
  | Ok events => ret (Ok events)
  end.

(** The filter loop of [HolidaysTool.Handle]. *)
Fixpoint holiday_lines (params : HolidayPayload (Time env))
    (events : list (VEvent env)) (holidays : list string) : list string :=
  match events with
  | [] => holidays
  | event :: rest =>
      match GetAllDayStartAt env event with
      | Err _ => holiday_lines params rest holidays
      | Ok date =>
          if Z.ltb 0 (MaxCount params)
             && Z.leb (MaxCount params) (Z.of_nat (List.length holidays))
          then holidays
          else if negb (IsZero env (BeforeDate params))
                  && After env date (BeforeDate params)
          then holiday_lines params rest holidays
          else if negb (IsZero env (AfterDate params))
                  && Before env date (AfterDate params)
          then holiday_lines params rest holidays
          else
            let holidayName := Summary_Value env event in
            holiday_lines params rest
              (holidays
               ++ [(Format_DateOnly env date ++ ": " ++ holidayName)%string])
      end
  end.

Definition HolidaysTool_Handle (args : string) : state World (result string) :=
  match json_Unmarshal_holidays env args with
  | Err err => ret (Err (fmt_Errorf "invalid holiday parameters: " err))
  | Ok params =>
      fun w =>
        let v := Getenv env "HOLIDAY_CALENDAR_LINK" w in
        let link :=
          if String.eqb v "" then
            "https://www.officeholidays.com/ics/spain/catalonia"
          else v in
        (r <- loadCalendar link ;;
         match r with
         | Err err =>
             ret (Err (fmt_Errorf "failed to load holiday calendar: " err))
         | Ok events =>
             let holidays := holiday_lines params events [] in
             if Nat.eqb (List.length holidays) 0 then
               ret (Ok "No holidays found matching the criteria.")
             else ret (Ok (Join holidays (String LF EmptyString)))
         end) w
  end.

Definition HolidaysTool : Tool :=
  {| Name := "get_holidays";
     Definition_ :=
       {| openai.Name := "get_holidays";
          openai.Description := "Gets local bank and public holidays. Each line is a single holiday in the format 'YYYY-MM-DD: Holiday Name'." |};
     Handle := HolidaysTool_Handle |}.

Definition TimeZoneTool : Tool :=
  {| Name := "convert_timezone";
     Definition_ :=
       {| openai.Name := "convert_timezone";
          openai.Description := "Convert a time from one timezone to another. Useful for travelers scheduling across different locations. Supports IANA timezone names (e.g., 'America/New_York', 'Europe/Madrid', 'Asia/Tokyo')." |};
     Handle := TimeZone_Handle env |}.

End WithEnv.

End tools.

(* ================================================================== *)
(** ** [Reply] of the assistant.go that is built on the [tools] package *)
(* ================================================================== *)

Module assistant_tools.

Section WithEnv.

Context {World : Type} (env : Env World).

(** [a.tools] as [New] sets it. *)
Definition New_tools : list (@tools.Tool World) :=
  [ tools.WeatherTool env; tools.DateTool env; tools.HolidaysTool env;
    tools.TimeZoneTool env ].

(** The receiver's [tools] field. *)
Variable a_tools : list (@tools.Tool World).

(** [for _, call := range message.ToolCalls
       { msgs = append(msgs, tools.Dispatch(ctx, a.tools, call)) }]. *)
Fixpoint tool_calls_loop (tool_calls : list openai.ToolCall)
    (msgs : list openai.MessageParam)
  : state (St World) (list openai.MessageParam) :=
  match tool_calls with
  | [] => ret msgs
  | call :: rest =>
      m <- tools.Dispatch a_tools call ;;
      tool_calls_loop rest (msgs ++ [m])
  end.

Definition reply_params (msgs : list openai.MessageParam)
  : openai.ChatCompletionNewParams :=
  {| openai.Model := openai.ChatModelGPT4_1;
     openai.Messages := msgs;
     openai.Tools := tools.Definitions a_tools |}.

(** [for i := 0; i < 15; i++ { ... }] and the return after it; [n] is the
    number of iterations left. *)
Fixpoint reply_loop (n : nat) (msgs : list openai.MessageParam)
  : state (St World) (result string) :=
  match n with
  | O => ret (Err (errors_New "too many tool calls, unable to generate reply"))
  | S n' =>
      r <- perform (BackendCall (reply_params msgs))
             (Completions_New env (reply_params msgs)) ;;
      match r with
      | Err err => ret (Err err)
      | Ok resp =>
          match openai.Choices resp with
          | [] => ret (Err (errors_New "no choices returned by OpenAI"))
          | choice :: _ =>
              let message := openai.Message choice in
              if Nat.ltb 0 (List.length (openai.ToolCalls message)) then
                msgs' <- tool_calls_loop (openai.ToolCalls message)
                           (msgs ++ [openai.ToParam message]) ;;
                reply_loop n' msgs'
              else ret (Ok (openai.Content message))
          end
      end
  end.

Definition Reply (conv : model.Conversation) : state (St World) (result string) :=
  if Nat.eqb (List.length (model.Messages conv)) 0 then
    ret (Err (errors_New "conversation has no messages"))
  else reply_loop 15 (assistant.seed_history conv).

End WithEnv.

End assistant_tools.

(* ================================================================== *)
(** ** The [chat] package: the assistant interface, its test double, and the
       coordinator *)
(* ================================================================== *)

Module chat.

Import strings.

(** What the server needs of an assistant.  The test doubles are functions
    of the conversation alone. *)
Record Assistant : Type := {
  Title : model.Conversation -> result string;
  Reply : model.Conversation -> result string
}.

(** [mockAssistant] of assistant_mock_test.go: two optional functions. *)
Record mockAssistant : Type := {
  titleFunc : option (model.Conversation -> result string);
  replyFunc : option (model.Conversation -> result string)
}.

Definition mock_Title (m : mockAssistant) (conv : model.Conversation)
  : result string :=
  match titleFunc m with
  | Some f => f conv
  | None =>
      match model.Messages conv with
      | [] => Ok "Empty Conversation"
      | first :: _ =>
          let title := model.Content first in
          if Nat.ltb 50 (len title) then Ok (slice_to title 50) else Ok title
      end
  end.

Definition mock_Reply (m : mockAssistant) (conv : model.Conversation)
  : result string :=
  match replyFunc m with
  | Some f => f conv
  | None => Ok "This is a test reply from the assistant."
  end.

Definition newMockAssistant : mockAssistant :=
  {| titleFunc := None; replyFunc := None |}.

Definition withTitleFunc (m : mockAssistant)
    (fn : model.Conversation -> result string) : mockAssistant :=
  {| titleFunc := Some fn; replyFunc := replyFunc m |}.

Definition withReplyFunc (m : mockAssistant)
    (fn : model.Conversation -> result string) : mockAssistant :=
  {| titleFunc := titleFunc m; replyFunc := Some fn |}.

Definition titleError (conv : model.Conversation) : result string :=
  Err (errors_New "simulated title generation error").

Definition replyError (conv : model.Conversation) : result string :=
  Err (errors_New "simulated reply generation error").

(** A [mockAssistant] as an [Assistant]. *)
Definition as_Assistant (m : mockAssistant) : Assistant :=
  {| Title := mock_Title m; Reply := mock_Reply m |}.

(** The title the tests of the server expect when title generation fails. *)
Definition defaultTitle : string := "Untitled conversation".

(** Modelled from the spec: the Dual-Generation Coordinator, the step of
    [StartConversation] (internal/chat/server.go, not among the sources; its
    tests in server_test.go are) that produces the title and the reply of a
    new conversation.  Section 4.3: the title task and the reply task run
    over the same snapshot of the conversation and are joined; if title
    generation fails the fixed default title is substituted; if reply
    generation fails the operation fails with the reply's error.  The two
    tasks share nothing but the snapshot, so the coordinator is a function of
    their two outcomes. *)
Definition generate (a : Assistant) (conv : model.Conversation)
  : result (string * string) :=
  let title := Title a conv in
  let reply := Reply a conv in
  match reply with
  | Err err => Err err
  | Ok replyText =>
      match title with
      | Err _ => Ok (defaultTitle, replyText)
      | Ok titleText => Ok (titleText, replyText)
      end
  end.

End chat.

(* ================================================================== *)
(** ** The two versions of the reply loop, side by side *)
(* ================================================================== *)

(** [Reply] exists in two versions: with the tool calls handled by the
    [switch] of assistant.go, and with the tool calls handed to
    [tools.Dispatch] over the tools [a_tools] of the receiver. *)
Inductive Version (World : Type) : Type :=
| WithSwitch
| WithDispatch (a_tools : list (@tools.Tool World)).

Arguments WithSwitch {World}.
Arguments WithDispatch {World} a_tools.

Section Versions.

Context {World : Type} (env : Env World).

Definition Reply_of (v : Version World) (conv : model.Conversation)
  : state (St World) (result string) :=
  match v with
  | WithSwitch => assistant.Reply env conv
  | WithDispatch a_tools => assistant_tools.Reply env a_tools conv
  end.

Definition reply_loop_of (v : Version World) (n : nat)
    (msgs : list openai.MessageParam) : state (St World) (result string) :=
  match v with
  | WithSwitch => assistant.reply_loop env n msgs
  | WithDispatch a_tools => assistant_tools.reply_loop env a_tools n msgs
  end.

(** The request a version sends for the history [msgs]. *)
Definition request_of (v : Version World) (msgs : list openai.MessageParam)
  : openai.ChatCompletionNewParams :=
  match v with
  | WithSwitch => assistant.reply_params msgs
  | WithDispatch a_tools => assistant_tools.reply_params a_tools msgs
  end.

(** The inner loop of a version, over the tool calls of one response: the
    new history, or the error with which [Reply] returns. *)
Definition carry_out (v : Version World) (tool_calls : list openai.ToolCall)
    (msgs : list openai.MessageParam)
  : state (St World) (result (list openai.MessageParam)) :=
  match v with
  | WithSwitch => assistant.tool_calls_loop env tool_calls msgs
  | WithDispatch a_tools =>
      msgs' <- assistant_tools.tool_calls_loop a_tools tool_calls msgs ;;
      ret (Ok msgs')
  end.

(** The state after a collaborator has run for a call: its world, and the
    run added to the record. *)
Definition after_run (st : St World) (w' : World) (name args : string)
  : St World :=
  {| world := w'; calls := calls st ++ [ToolRun name args] |}.

(** The names that have a case in the [switch] of assistant.go. *)
Definition switch_case (name : string) : bool :=
  String.eqb name "get_weather" || String.eqb name "get_today_date"
  || String.eqb name "get_holidays".

(** The names a slice of tools answers to. *)
Definition tool_named (a_tools : list (@tools.Tool World)) (name : string)
  : bool :=
  existsb (fun tool => String.eqb (tools.Name tool) name) a_tools.



(** The name and the arguments [Dispatch] reads off a call of type
    "function" or "custom". *)
Definition requested (call : openai.ToolCall) (name args : string) : Prop :=
  (openai.Type_ call = "function"
   /\ name = openai.Function_Name call
   /\ args = openai.Function_Arguments call)
  \/ (openai.Type_ call = "custom"
      /\ name = openai.Custom_Name call
      /\ args = openai.Custom_Input call).


(** The call [call] is answered with the tool message of content
    [description] and of the id of the call, and the inner loop goes on with
    the calls that follow it: a loop that starts with [call] in the state
    [st] is the loop over the rest, from the history with that message
    appended and the state [st']. *)
Definition answered_with (v : Version World) (call : openai.ToolCall)
    (description : string) (st st' : St World) : Prop :=
  forall (rest : list openai.ToolCall) (msgs : list openai.MessageParam),
    carry_out v (call :: rest) msgs st
    = carry_out v rest
        (msgs ++ [openai.ToolMessage description (openai.ID call)]) st'.

(** A tool message that answers the call [call]. *)
Definition answers (call : openai.ToolCall) (m : openai.MessageParam) : Prop :=
  exists content, m = openai.ToolMessage content (openai.ID call).

End Versions.

(* ================================================================== *)
(** ** Test doubles for the collaborators *)
(* ================================================================== *)

Module fixture.

Import strings.

(** A plain-text answer and an answer that requests tool calls. *)
Definition text_response (content : string) : openai.ChatCompletion :=
  {| openai.Choices :=
       [ {| openai.Message :=
              {| openai.Content := content; openai.ToolCalls := [] |} |} ] |}.

Definition function_call (id name args : string) : openai.ToolCall :=
  {| openai.ID := id;
     openai.Type_ := "function";
     openai.Function_Name := name;
     openai.Function_Arguments := args;
     openai.Custom_Name := "";
     openai.Custom_Input := "" |}.

Definition tool_response (tool_calls : list openai.ToolCall)
  : openai.ChatCompletion :=
  {| openai.Choices :=
       [ {| openai.Message :=
              {| openai.Content := ""; openai.ToolCalls := tool_calls |} |} ] |}.

(** Collaborators with canned behaviour around a given backend: the decoders
    reject the argument string "{" and accept every other one; the weather
    service is down for the location "Atlantis"; the calendar has two
    holidays. *)
Definition env_with {World : Type}
    (backend : openai.ChatCompletionNewParams
               -> state World (result openai.ChatCompletion))
  : Env World :=
  {| Forecast := string;
     CurrentWeather := string;
     VEvent := Z * string;
     Time := Z;
     Completions_New := backend;
     json_Unmarshal_weather := fun args =>
       if String.eqb args "{" then Err (external "unexpected end of JSON input")
       else Ok {| Location := args; ForecastDays := 0 |};
     GetForecast := fun location days =>
       ret (Ok ("Forecast for " ++ location)%string);
     GetCurrentWeather := fun location =>
       if String.eqb location "Atlantis"
       then ret (Err (external "weather API returned status 400"))
       else ret (Ok ("Sunny in " ++ location)%string);
     FormatForecast := fun forecast => forecast;
     FormatCurrentWeather := fun weather => weather;
     Now_RFC3339 := ret "2025-12-07T15:30:00Z";
     Getenv := fun name w => "";
     LoadCalendar := fun link =>
       ret (Ok [(1%Z, "New Year"); (6%Z, "Epiphany")]);
     ParseCalendarFromUrl := fun link =>
       ret (Ok [(1%Z, "New Year"); (6%Z, "Epiphany")]);
     json_Unmarshal_holidays := fun args =>
       if String.eqb args "{" then Err (external "unexpected end of JSON input")
       else Ok {| BeforeDate := 0%Z; AfterDate := 0%Z; MaxCount := 0%Z |};
     GetAllDayStartAt := fun event => Ok (fst event);
     IsZero := fun t => Z.eqb t 0;
     After := fun t u => Z.ltb u t;
     Before := fun t u => Z.ltb t u;
     Format_DateOnly := fun t => if Z.eqb t 1 then "2025-01-01" else "2025-01-06";
     Summary_Value := fun event => snd event;
     TimeZone_Handle := fun args => ret (Ok "same time") |}.

(** A backend that plays a script: the world is the list of the answers it
    has not given yet; when the script is over the backend is unreachable. *)
Definition Script : Type := list (result openai.ChatCompletion).

Definition scripted (params : openai.ChatCompletionNewParams)
  : state Script (result openai.ChatCompletion) :=
  fun script =>
    match script with
    | [] => (Err (external "connection refused"), [])
    | answer :: rest => (answer, rest)
    end.

Definition env : Env Script := env_with scripted.



Definition start {World : Type} (w : World) : St World :=
  {| world := w; calls := [] |}.

Definition user_says (content : string) : model.Conversation :=
  {| model.Messages :=
       [ {| model.Role_ := model.RoleUser; model.Content := content |} ] |}.

(** A backend answer of 81 bytes: 79 letters, a space and a letter. *)
Definition long_title : string := (Repeat "a" 79 ++ " b")%string.

(** The mock assistant of the test "handles title generation failure
    gracefully". *)
Definition title_fails : chat.mockAssistant :=
  chat.withReplyFunc
    (chat.withTitleFunc chat.newMockAssistant chat.titleError)
    (fun conv => Ok "Assistant reply works fine").

(** A script in which the backend first asks for a tool that does not
    exist and then answers in plain text. *)
Definition unknown_then_text : Script :=
  [ Ok (tool_response [function_call "call_1" "get_stock_price" "{}"]);
    Ok (text_response "done") ].

(** An answer that asks for the weather and for the date, and the script
    that starts with it. *)
Definition two_calls : list openai.ToolCall :=
  [ function_call "call_1" "get_weather" "Barcelona";
    function_call "call_2" "get_today_date" "" ].

Definition two_calls_then_text : Script :=
  [ Ok (tool_response two_calls); Ok (text_response "Sunny, on a Sunday.") ].

Definition asks_weather : list openai.MessageParam :=
  assistant.seed_history (user_says "What is the weather in Barcelona?").


End fixture.

(* ================================================================== *)
(** ** Package [weather]: the client of WeatherAPI.com *)
(* ================================================================== *)

(** [weather.Client] of the tools version and [WeatherClient] of
    assistant/weather.go are the same code under two names. *)
Module weather.

(** The fields of the client that the calls read; the [http.Client] is part
    of [Http]. *)
Record Client : Type := { apiKey : string; baseURL : string }.

(** What the code reads of an [http.Response]: the status code and the
    body as [io.ReadAll] or the JSON decoder get it. *)
Record Response : Type := { StatusCode : Z; Body : string }.

(** The library calls of the client.  A request is identified by its URL
    (the method is always GET and there is no body).  [NewRequest] is
    [http.NewRequestWithContext], which can reject the URL; [Do] is
    [httpClient.Do]. *)
Record Http (World Forecast CurrentWeather : Type) : Type := {
  QueryEscape : string -> string;
  NewRequest : string -> result string;
  Do : string -> state World (result Response);
  Decode_current : string -> result CurrentWeather;
  Decode_forecast : string -> result Forecast
}.

(** [fmt.Sprintf("%d", n)]. *)
Definition itoa (n : Z) : string := NilZero.string_of_int (Z.to_int n).

Definition StatusOK : Z := 200.

Section WithHttp.

Context {World Forecast CurrentWeather : Type}
        (http : Http World Forecast CurrentWeather).

(** [NewClientWithKey]. *)
Definition NewClientWithKey (key : string) : Client :=
  {| apiKey := key; baseURL := "https://api.weatherapi.com/v1" |}.

(** [NewClient]: the key is the value of WEATHER_API_KEY. *)
Definition NewClient (getenv : string -> string) : Client :=
  NewClientWithKey (getenv "WEATHER_API_KEY").

Definition current_url (c : Client) (location : string) : string :=
  (baseURL c ++ "/current.json?key=" ++ QueryEscape http (apiKey c)
   ++ "&q=" ++ QueryEscape http location ++ "&aqi=no")%string.

Definition GetCurrentWeather (c : Client) (location : string)
  : state World (result CurrentWeather) :=
  if String.eqb (apiKey c) "" then
    ret (Err (errors_New "WEATHER_API_KEY environment variable not set"))
  else
    let reqURL := current_url c location in
    match NewRequest http reqURL with
    | Err err => ret (Err (fmt_Errorf "failed to create request: " err))
    | Ok req =>
        r <- Do http req ;;
        match r with
        | Err err => ret (Err (fmt_Errorf "failed to fetch weather: " err))
        | Ok resp =>
            if negb (Z.eqb (StatusCode resp) StatusOK) then
              ret (Err (errors_New
                          ("weather API returned status "
                           ++ itoa (StatusCode resp) ++ ": "
                           ++ Body resp)%string))
            else
              match Decode_current http (Body resp) with
              | Err err =>
                  ret (Err (fmt_Errorf "failed to decode response: " err))
              | Ok weatherResp => ret (Ok weatherResp)
              end
        end
    end.

(** The two assignments that bring [days] into the range 1..10. *)
Definition clamp_days (days : Z) : Z :=
  let days := if Z.ltb days 1 then 1%Z else days in
  if Z.ltb 10 days then 10%Z else days.

Definition forecast_url (c : Client) (location : string) (days : Z) : string :=
  (baseURL c ++ "/forecast.json?key=" ++ QueryEscape http (apiKey c)
   ++ "&q=" ++ QueryEscape http location
   ++ "&days=" ++ itoa days ++ "&aqi=no&alerts=no")%string.

Definition GetForecast (c : Client) (location : string) (days : Z)
  : state World (result Forecast) :=
  if String.eqb (apiKey c) "" then
    ret (Err (errors_New "WEATHER_API_KEY environment variable not set"))
  else
    let days := clamp_days days in
    let reqURL := forecast_url c location days in
    match NewRequest http reqURL with
    | Err err => ret (Err (fmt_Errorf "failed to create request: " err))
    | Ok req =>
        r <- Do http req ;;
        match r with
        | Err err => ret (Err (fmt_Errorf "failed to fetch forecast: " err))
        | Ok resp =>
            if negb (Z.eqb (StatusCode resp) StatusOK) then
              ret (Err (errors_New
                          ("weather API returned status "
                           ++ itoa (StatusCode resp) ++ ": "
                           ++ Body resp)%string))
            else
              match Decode_forecast http (Body resp) with
              | Err err =>
                  ret (Err (fmt_Errorf "failed to decode response: " err))
              | Ok forecastResp => ret (Ok forecastResp)
              end
        end
    end.

End WithHttp.

End weather.

(** The collaborators [env] with the weather service replaced by the
    client [c] over [http]. *)
Definition with_weather_client {World : Type} (env : Env World)
    (http : weather.Http World (Forecast env) (CurrentWeather env)) (c : weather.Client)
  : Env World :=
  {| Forecast := Forecast env;
     CurrentWeather := CurrentWeather env;
     VEvent := VEvent env;
     Time := Time env;
     Completions_New := Completions_New env;
     json_Unmarshal_weather := json_Unmarshal_weather env;
     GetForecast := weather.GetForecast http c;
     GetCurrentWeather := weather.GetCurrentWeather http c;
     FormatForecast := FormatForecast env;
     FormatCurrentWeather := FormatCurrentWeather env;
     Now_RFC3339 := Now_RFC3339 env;
     Getenv := Getenv env;
     LoadCalendar := LoadCalendar env;
     ParseCalendarFromUrl := ParseCalendarFromUrl env;
     json_Unmarshal_holidays := json_Unmarshal_holidays env;
     GetAllDayStartAt := GetAllDayStartAt env;
     IsZero := IsZero env;
     After := After env;
     Before := Before env;
     Format_DateOnly := Format_DateOnly env;
     Summary_Value := Summary_Value env;
     TimeZone_Handle := TimeZone_Handle env |}.


(* ================================================================== *)
(** ** The time zone adapter of the [tools] package *)
(* ================================================================== *)

Module timezone.

(** The anonymous struct the arguments are decoded into. *)
Record Params : Type := {
  Time_ : string;
  FromTimezone : string;
  ToTimezone : string
}.

(** The [time] and [encoding/json] calls of the adapter.  A [time.Time] is
    an instant seen in a location; [Zone_offset t loc] is the offset in
    seconds that [t.In(loc).Zone()] returns and [Format_in t loc] is
    [t.In(loc).Format("2006-01-02 15:04:05 MST")].  [Sprintf_hours d] is
    [fmt.Sprintf("%.1f", float64(d) / 3600.0)] for a difference [d] of two
    offsets; the quotient has the sign of [d], so the comparisons of the
    quotient with 0 are comparisons of [d] with 0. *)
Record Clock (World Location Instant : Type) : Type := {
  json_Unmarshal : string -> result Params;
  LoadLocation : string -> result Location;
  Now : state World Instant;
  Parse_RFC3339 : string -> result Instant;
  Zone_offset : Instant -> Location -> Z;
  Format_in : Instant -> Location -> string;
  Sprintf_hours : Z -> string
}.

Section WithClock.

Context {World Location Instant : Type} (clock : Clock World Location Instant).

(** The text built once the instant and the two locations are known. *)
Definition conversion (params : Params) (fromLoc toLoc : Location)
    (inputTime : Instant) : string :=
  let fromOffset := Zone_offset clock inputTime fromLoc in
  let toOffset := Zone_offset clock inputTime toLoc in
  let diff := (toOffset - fromOffset)%Z in
  let diffStr :=
    if Z.ltb 0 diff then ("+" ++ Sprintf_hours clock diff ++ " hours")%string
    else if Z.ltb diff 0 then (Sprintf_hours clock diff ++ " hours")%string
    else "same time" in
  ("Time Conversion:" ++ String strings.LF
   ("From: " ++ Format_in clock inputTime fromLoc
    ++ " (" ++ FromTimezone params ++ ")" ++ String strings.LF
    ("To:   " ++ Format_in clock inputTime toLoc
     ++ " (" ++ ToTimezone params ++ ")" ++ String strings.LF
     ("Time difference: " ++ diffStr))))%string.

(** [TimeZoneTool.Handle]. *)
Definition Handle (args : string) : state World (result string) :=
  match json_Unmarshal clock args with
  | Err err => ret (Err (fmt_Errorf "invalid timezone parameters: " err))
  | Ok params =>
      match LoadLocation clock (FromTimezone params) with
      | Err err =>
          ret (Err (fmt_Errorf
                      ("invalid source timezone '" ++ FromTimezone params
                       ++ "': ")%string err))
      | Ok fromLoc =>
          match LoadLocation clock (ToTimezone params) with
          | Err err =>
              ret (Err (fmt_Errorf
                          ("invalid target timezone '" ++ ToTimezone params
                           ++ "': ")%string err))
          | Ok toLoc =>
              if String.eqb (Time_ params) ""
                 || String.eqb (Time_ params) "now"
              then
                inputTime <- Now clock ;;
                ret (Ok (conversion params fromLoc toLoc inputTime))
              else
                match Parse_RFC3339 clock (Time_ params) with
                | Err err =>
                    ret (Err (fmt_Errorf
                                ("invalid time format '" ++ Time_ params
                                 ++ "', expected RFC3339 (e.g., '2025-12-15T14:00:00Z'): ")%string
                                err))
                | Ok parsedTime =>
                    ret (Ok (conversion params fromLoc toLoc parsedTime))
                end
          end
      end
  end.

End WithClock.

End timezone.

(* ================================================================== *)
(** ** Package [telemetry]: the status-capturing writer and the middlewares *)
(* ================================================================== *)

Module telemetry.

(** [http.ResponseWriter], as far as the middlewares use it. *)
Class ResponseWriter (W : Type) : Type := {
  WriteHeader : Z -> W -> W;
  Write : string -> W -> (Z * option error) * W
}.

(** [responseWriter]: the wrapped writer, the captured status code and the
    flag that a header went out. *)
Record responseWriter (W : Type) : Type := {
  inner : W;
  statusCode : Z;
  written : bool
}.

Definition StatusOK : Z := 200.

Section Wrapper.

Context {W : Type} `{ResponseWriter W}.

(** The method [WriteHeader] of [responseWriter]. *)
Definition responseWriter_WriteHeader (code : Z) (rw : responseWriter W)
  : responseWriter W :=
  if negb (written rw) then
    {| inner := WriteHeader code (inner rw);
       statusCode := code;
       written := true |}
  else rw.

(** The method [Write] of [responseWriter]. *)
Definition responseWriter_Write (b : string) (rw : responseWriter W)
  : (Z * option error) * responseWriter W :=
  let rw := if negb (written rw) then responseWriter_WriteHeader StatusOK rw
            else rw in
  let (res, w) := Write b (inner rw) in
  (res, {| inner := w; statusCode := statusCode rw; written := written rw |}).

(** The wrapper both middlewares start from. *)
Definition wrap (w : W) : responseWriter W :=
  {| inner := w; statusCode := StatusOK; written := false |}.

End Wrapper.

(** The wrapper is itself a writer, which is how the middlewares nest. *)
#[export] Instance responseWriter_ResponseWriter {W : Type}
    `{ResponseWriter W} : ResponseWriter (responseWriter W) :=
  {| WriteHeader := responseWriter_WriteHeader;
     Write := responseWriter_Write |}.

(** A writer that only records the calls it receives. *)
Inductive Received : Type :=
| Header (code : Z)
| Body (b : string).

#[export] Instance recorder : ResponseWriter (list Received) :=
  {| WriteHeader := fun code log => log ++ [Header code];
     Write := fun b log =>
       ((Z.of_nat (String.length b), None), log ++ [Body b]) |}.

(** What a handler does to its writer: the calls it makes, in order. *)
Inductive Call : Type :=
| CallWriteHeader (code : Z)
| CallWrite (b : string).

Fixpoint serve {W : Type} `{ResponseWriter W} (handler : list Call) (w : W)
  : W :=
  match handler with
  | [] => w
  | CallWriteHeader code :: rest => serve rest (WriteHeader code w)
  | CallWrite b :: rest => serve rest (snd (Write b w))
  end.

(** The part of an [http.Request] the middlewares read. *)
Record Request : Type := {
  Method : string;
  URL_Path : string;
  URL_String : string;
  URL_Scheme : string;
  Host : string
}.

Inductive KeyValue : Type :=
| attribute_String (key value : string)
| attribute_Int (key : string) (value : Z)
| attribute_Bool (key : string) (value : bool).

(** What the instruments of [Metrics] and the tracer received. *)
Inductive Measurement : Type :=
| RequestCount_Add (n : Z) (attrs : list KeyValue)
| RequestDuration_Record (ms : Z) (attrs : list KeyValue)
| ErrorCount_Add (n : Z) (attrs : list KeyValue).

Record Span : Type := { span_name : string; span_attrs : list KeyValue }.

Record Telemetry : Type := {
  measurements : list Measurement;
  spans : list Span
}.

(** An [http.Handler]: it acts on its writer and on the telemetry. *)
Definition Handler (W : Type) : Type := W -> Telemetry -> W * Telemetry.

(** A handler that only makes the calls [handler] on its writer. *)
Definition plain {W : Type} `{ResponseWriter W} (handler : list Call)
  : Handler W :=
  fun w t => (serve handler w, t).

Section Middlewares.

Context {W : Type} `{ResponseWriter W}.

(** [MetricsMiddleware(metrics)(next)]; [duration] is the time the clock
    says [next] took, in milliseconds. *)
Definition MetricsMiddleware (duration : Z)
    (next : Handler (responseWriter W)) (r : Request) : Handler W :=
  fun w t =>
    let (wrapped, t) := next (wrap w) t in
    let attrs :=
      [ attribute_String "http.method" (Method r);
        attribute_String "http.path" (URL_Path r);
        attribute_Int "http.status_code" (statusCode wrapped) ] in
    let ms := measurements t ++ [RequestCount_Add 1 attrs] in
    let ms := ms ++ [RequestDuration_Record duration attrs] in
    let ms := if Z.leb 400 (statusCode wrapped)
              then ms ++ [ErrorCount_Add 1 attrs] else ms in
    (inner wrapped, {| measurements := ms; spans := spans t |}).

(** [TracingMiddleware()(next)]: the span is started before [next] runs and
    ended, with its last attributes, after it. *)
Definition TracingMiddleware (next : Handler (responseWriter W))
    (r : Request) : Handler W :=
  fun w t =>
    let attrs :=
      [ attribute_String "http.method" (Method r);
        attribute_String "http.url" (URL_String r);
        attribute_String "http.path" (URL_Path r);
        attribute_String "http.scheme" (URL_Scheme r);
        attribute_String "http.host" (Host r) ] in
    let (wrapped, t) := next (wrap w) t in
    let attrs :=
      attrs ++ [attribute_Int "http.status_code" (statusCode wrapped)] in
    let attrs :=
      if Z.leb 400 (statusCode wrapped)
      then attrs ++ [attribute_Bool "error" true] else attrs in
    (inner wrapped,
     {| measurements := measurements t;
        spans := spans t
                 ++ [ {| span_name := (Method r ++ " " ++ URL_Path r)%string;
                         span_attrs := attrs |} ] |}).

End Middlewares.

(** The status a wrapper over a fresh writer ends with, read off the calls
    of the handler: the code of the first call if that is a WriteHeader,
    and 200 otherwise. *)
Definition first_status (handler : list Call) : Z :=
  match handler with
  | CallWriteHeader code :: _ => code
  | _ => StatusOK
  end.

(** The Write calls of a handler, in order. *)
Fixpoint writes (handler : list Call) : list Call :=
  match handler with
  | [] => []
  | CallWriteHeader _ :: rest => writes rest
  | CallWrite b :: rest => CallWrite b :: writes rest
  end.

(** The calls that reach the wrapped writer: nothing if the handler does
    nothing, and otherwise one WriteHeader with the first status followed by
    the Write calls. *)
Definition forwarded (handler : list Call) : list Call :=
  match handler with
  | [] => []
  | _ :: _ => CallWriteHeader (first_status handler) :: writes handler
  end.

(** The attributes both middlewares attach to a request with a status. *)
Definition metric_attrs (r : Request) (status : Z) : list KeyValue :=
  [ attribute_String "http.method" (Method r);
    attribute_String "http.path" (URL_Path r);
    attribute_Int "http.status_code" status ].

End telemetry.

(* ================================================================== *)
(** ** Auxiliary notions for the statements about the loops *)
(* ================================================================== *)

Section Characterisations.

Context {World : Type} (env : Env World).

(** What one message of the conversation contributes to the history of
    [Reply]. *)
Definition history_entry (m : model.Message) : list openai.MessageParam :=
  if String.eqb (model.Role_ m) model.RoleUser then
    [openai.UserMessage (model.Content m)]
  else if String.eqb (model.Role_ m) model.RoleAssistant then
    [openai.AssistantMessage (model.Content m)]
  else [].


(** The histories of the requests in a record of calls, in order. *)
Fixpoint histories (evs : list Event) : list (list openai.MessageParam) :=
  match evs with
  | [] => []
  | BackendCall params :: rest => openai.Messages params :: histories rest
  | ToolRun _ _ :: rest => histories rest
  end.

(** Every history extends the one before it, the first one extends
    [previous]. *)
Fixpoint growing (previous : list openai.MessageParam)
    (hs : list (list openai.MessageParam)) : Prop :=
  match hs with
  | [] => True
  | h :: rest => (exists more, h = previous ++ more) /\ growing h rest
  end.

(** Every request in a record of calls is the request of version [v] for
    its history: the model and the advertised tools never change. *)
Definition requests_of_version (v : Version World) (evs : list Event) : Prop :=
  Forall (fun ev =>
            match ev with
            | BackendCall params => params = request_of v (openai.Messages params)
            | ToolRun _ _ => True
            end) evs.

End Characterisations.

(* ================================================================== *)
(** ** Package [telemetry]: start and shutdown of the providers *)
(* ================================================================== *)

Module telemetry_init.

(** What happens to the two providers, in order. *)
Inductive Action : Type :=
| SetMeterProvider
| SetTracerProvider
| MeterProvider_Shutdown
| TracerProvider_Shutdown.

(** The outcomes of the SDK calls: of the two exporter constructors and of
    the two [provider.Shutdown] calls ([None] is a nil error). *)
Record Sdk : Type := {
  stdoutmetric_New : option error;
  stdouttrace_New : option error;
  meter_Shutdown : option error;
  tracer_Shutdown : option error
}.

(** [type Shutdown func(context.Context) error]. *)
Definition Shutdown : Type := state (list Action) (option error).

Definition act (a : Action) : state (list Action) unit :=
  fun log => (tt, log ++ [a]).

Section WithSdk.

Variable sdk : Sdk.

Definition InitMetrics : state (list Action) (result Shutdown) :=
  match stdoutmetric_New sdk with
  | Some err => ret (Err err)
  | None =>
      _ <- act SetMeterProvider ;;
      ret (Ok (_ <- act MeterProvider_Shutdown ;; ret (meter_Shutdown sdk)))
  end.

Definition InitTracing : state (list Action) (result Shutdown) :=
  match stdouttrace_New sdk with
  | Some err => ret (Err err)
  | None =>
      _ <- act SetTracerProvider ;;
      ret (Ok (_ <- act TracerProvider_Shutdown ;; ret (tracer_Shutdown sdk)))
  end.

Definition InitTelemetry : state (list Action) (result Shutdown) :=
  r <- InitMetrics ;;
  match r with
  | Err err => ret (Err err)
  | Ok shutdownMetrics =>
      r <- InitTracing ;;
      match r with
      | Err err =>
          _ <- shutdownMetrics ;;
          ret (Err err)
      | Ok shutdownTracing =>
          ret (Ok (errMetrics <- shutdownMetrics ;;
                   errTracing <- shutdownTracing ;;
                   match errMetrics with
                   | Some err => ret (Some err)
                   | None => ret errTracing
                   end))
      end
  end.

End WithSdk.

End telemetry_init.

(* ================================================================== *)
(** ** Test doubles for the weather service and the clock *)
(* ================================================================== *)

Module doubles.

(** A weather service that answers every request with the given status and
    body; requests are their URLs, nothing is escaped, and a body decodes to
    itself. *)
Definition http_answering (status : Z) (body : string)
  : weather.Http nat string string :=
  {| weather.QueryEscape := fun s => s;
     weather.NewRequest := fun url => Ok url;
     weather.Do := fun req requests =>
       (Ok {| weather.StatusCode := status; weather.Body := body |},
        S requests);
     weather.Decode_current := fun b => Ok b;
     weather.Decode_forecast := fun b => Ok b |}.

(** The same service behind the collaborators of [fixture]; the world is
    the number of HTTP requests made. *)
Definition backend_down (params : openai.ChatCompletionNewParams)
  : state nat (result openai.ChatCompletion) :=
  ret (Err (external "connection refused")).

Definition env_down : Env nat := fixture.env_with backend_down.

(** A clock that knows three zones by their offsets in seconds and whose
    world is the current instant.  It decodes the argument string "at noon"
    as a conversion of a given time from UTC to Tokyo, and any other string
    but one as the target zone of a conversion of the current time from
    UTC. *)
Definition clock : timezone.Clock Z Z Z :=
  {| timezone.json_Unmarshal := fun args =>
       if String.eqb args "{invalid json}"
       then Err (external "invalid character 'i'")
       else if String.eqb args "at noon"
       then Ok {| timezone.Time_ := "2025-12-15T12:00:00Z";
                  timezone.FromTimezone := "UTC";
                  timezone.ToTimezone := "Asia/Tokyo" |}
       else Ok {| timezone.Time_ := "now";
                  timezone.FromTimezone := "UTC";
                  timezone.ToTimezone := args |};
     timezone.LoadLocation := fun name =>
       if String.eqb name "UTC" then Ok 0%Z
       else if String.eqb name "Asia/Tokyo" then Ok 32400%Z
       else if String.eqb name "America/New_York" then Ok (-18000)%Z
       else Err (external "unknown time zone");
     timezone.Now := fun now => (now, (now + 1)%Z);
     timezone.Parse_RFC3339 := fun s =>
       if String.eqb s "2025-12-15T12:00:00Z" then Ok 1765800000%Z
       else Err (external "cannot parse");
     timezone.Zone_offset := fun t loc => loc;
     timezone.Format_in := fun t loc => "2025-12-15 14:00:00";
     timezone.Sprintf_hours := fun d => weather.itoa (d / 3600) |}.

(** An SDK whose trace exporter cannot be made, and one whose meter
    provider fails to shut down. *)
Definition sdk_without_traces : telemetry_init.Sdk :=
  {| telemetry_init.stdoutmetric_New := None;
     telemetry_init.stdouttrace_New := Some (external "cannot open stdout");
     telemetry_init.meter_Shutdown := None;
     telemetry_init.tracer_Shutdown := None |}.

Definition sdk_flush_fails : telemetry_init.Sdk :=
  {| telemetry_init.stdoutmetric_New := None;
     telemetry_init.stdouttrace_New := None;
     telemetry_init.meter_Shutdown := Some (external "flush failed");
     telemetry_init.tracer_Shutdown := None |}.

End doubles.

(* ================================================================== *)
(** * Properties *)
(* ================================================================== *)

(** ** Bytes of trimmed and truncated strings *)

Section StringFacts.

Import strings.

Lemma contains_byte_app (s t : string) (c : ascii) :
  contains_byte (s ++ t)%string c = contains_byte s c || contains_byte t c.
Proof.
  induction s as [|d s IH]; simpl; [reflexivity|].
  rewrite IH. now rewrite orb_assoc.
Qed.

Lemma ReplaceAll_removes (s : string) (old : ascii) (new : string) :
  contains_byte new old = false ->
  contains_byte (ReplaceAll s old new) old = false.
Proof.
  intros Hnew. induction s as [|c s IH]; simpl; [reflexivity|].
  destruct (Ascii.eqb c old) eqn:E.
  - rewrite contains_byte_app, Hnew, IH. reflexivity.
  - simpl. now rewrite E, IH.
Qed.

Lemma TrimLeft_contains (s cut : string) (c : ascii) :
  contains_byte s c = false -> contains_byte (TrimLeft s cut) c = false.
Proof.
  induction s as [|d s IH]; simpl; [easy|].
  intros H. apply orb_false_iff in H as [Hd Hs].
  destruct (inCutset cut d); [now apply IH|].
  simpl. now rewrite Hd, Hs.
Qed.

Lemma TrimRight_contains (s cut : string) (c : ascii) :
  contains_byte s c = false -> contains_byte (TrimRight s cut) c = false.
Proof.
  induction s as [|d s IH]; simpl; [easy|].
  intros H. apply orb_false_iff in H as [Hd Hs].
  specialize (IH Hs).
  destruct (TrimRight s cut) as [|e t] eqn:E.
  - destruct (inCutset cut d); simpl; [reflexivity|now rewrite Hd].
  - change (contains_byte (String d (String e t)) c = false).
    simpl in *. now rewrite Hd, IH.
Qed.

Lemma substring_prefix_contains (s : string) (n : nat) (c : ascii) :
  contains_byte s c = false -> contains_byte (substring 0 n s) c = false.
Proof.
  revert s. induction n as [|n IH]; intros [|d s]; simpl; try easy.
  intros H. apply orb_false_iff in H as [Hd Hs].
  now rewrite Hd, IH.
Qed.

Lemma substring_prefix_length (s : string) (n : nat) :
  String.length (substring 0 n s) <= n.
Proof.
  revert s. induction n as [|n IH]; intros [|d s]; simpl; try lia.
  specialize (IH s). lia.
Qed.

Lemma TrimLeft_first (s cut : string) (c : ascii) :
  first_byte (TrimLeft s cut) = Some c -> inCutset cut c = false.
Proof.
  induction s as [|d s IH]; simpl; [discriminate|].
  destruct (inCutset cut d) eqn:E; [exact IH|].
  simpl. intros H. now inversion H; subst.
Qed.

Lemma substring_prefix_first (s : string) (n : nat) (c : ascii) :
  first_byte (substring 0 n s) = Some c -> first_byte s = Some c.
Proof.
  destruct n, s; simpl; try discriminate; auto.
Qed.

Lemma last_byte_cons (d : ascii) (s : string) :
  s <> EmptyString -> last_byte (String d s) = last_byte s.
Proof.
  destruct s; [congruence|reflexivity].
Qed.

Lemma TrimRight_last (s cut : string) (c : ascii) :
  last_byte (TrimRight s cut) = Some c -> inCutset cut c = false.
Proof.
  induction s as [|d s IH]; simpl; [discriminate|].
  destruct (TrimRight s cut) as [|e t] eqn:E.
  - destruct (inCutset cut d) eqn:Ed; simpl; [discriminate|].
    intros H. now inversion H; subst.
  - rewrite last_byte_cons by discriminate. exact IH.
Qed.

Lemma TrimLeft_last (s cut : string) (c : ascii) :
  last_byte (TrimLeft s cut) = Some c -> last_byte s = Some c.
Proof.
  induction s as [|d s IH]; simpl TrimLeft; [easy|].
  destruct (inCutset cut d); [|easy].
  intros H. specialize (IH H).
  rewrite last_byte_cons; [exact IH|].
  intros ->. discriminate.
Qed.

End StringFacts.

(** ** [Title] *)

Section TitleFacts.

Import strings.

Context {World : Type} (env : Env World).

(** The title has at most 80 bytes. *)
Lemma title_of_content_length (content : string) :
  len (assistant.title_of_content content) <= 80.
Proof.
  unfold assistant.title_of_content.
  destruct (Nat.ltb_spec 80
              (len (Trim (ReplaceAll content LF " ")
                         assistant.title_cutset))) as [H|H].
  - apply substring_prefix_length.
  - exact H.
Qed.

(** The title contains no line feed. *)
Lemma title_of_content_no_newline (content : string) :
  contains_byte (assistant.title_of_content content) LF = false.
Proof.
  assert (H : contains_byte
                (Trim (ReplaceAll content LF " ") assistant.title_cutset)
                LF = false).
  { unfold Trim. apply TrimLeft_contains, TrimRight_contains.
    apply ReplaceAll_removes. reflexivity. }
  unfold assistant.title_of_content.
  destruct (Nat.ltb _ _); [now apply substring_prefix_contains|exact H].
Qed.

(** The first byte of the title is none of the trimmed ones. *)
Lemma title_of_content_first (content : string) (c : ascii) :
  first_byte (assistant.title_of_content content) = Some c ->
  inCutset assistant.title_cutset c = false.
Proof.
  unfold assistant.title_of_content.
  destruct (Nat.ltb _ _); intros H.
  - apply substring_prefix_first in H. now apply TrimLeft_first in H.
  - now apply TrimLeft_first in H.
Qed.

(** When nothing is cut off, the last byte of the title is none of the
    trimmed ones either. *)
Lemma title_of_content_last_untruncated (content : string) (c : ascii) :
  len (Trim (ReplaceAll content LF " ") assistant.title_cutset) <= 80 ->
  last_byte (assistant.title_of_content content) = Some c ->
  inCutset assistant.title_cutset c = false.
Proof.
  unfold assistant.title_of_content. intros Hlen.
  destruct (Nat.ltb_spec 80
              (len (Trim (ReplaceAll content LF " ")
                         assistant.title_cutset))) as [H|H]; [lia|].
  intros Hl. apply TrimLeft_last in Hl. now apply TrimRight_last in Hl.
Qed.

(** A successful [Title] on a conversation with messages made one request
    and post-processed the content of its first choice. *)
Lemma Title_success (conv : model.Conversation) (st st' : St World)
    (title : string) :
  model.Messages conv <> [] ->
  assistant.Title env conv st = (Ok title, st') ->
  exists content,
    TrimSpace_is_empty content = false
    /\ title = assistant.title_of_content content
    /\ backend_calls (calls st') = S (backend_calls (calls st)).
Proof.
  intros Hne. unfold assistant.Title.
  destruct (model.Messages conv) as [|m ms] eqn:Em; [congruence|].
  cbn [List.length Nat.eqb]. unfold bind, perform, ret.
  destruct (Completions_New env _ (world st)) as [[resp|err] w]; [|discriminate].
  destruct (openai.Choices resp) as [|choice others]; [discriminate|].
  destruct (TrimSpace_is_empty _) eqn:Et; [discriminate|].
  intros H. inversion H; subst; clear H.
  eexists. repeat split; [exact Et|].
  cbn [calls]. unfold backend_calls.
  rewrite filter_app, length_app. simpl. lia.
Qed.

(** What does hold of every title: at most 80 bytes, no line feed, and no
    leading space, tab, carriage return, line feed, dash or quote. *)
Lemma Title_length_newline_leading (conv : model.Conversation)
    (st st' : St World) (title : string) :
  model.Messages conv <> [] ->
  assistant.Title env conv st = (Ok title, st') ->
  len title <= 80
  /\ contains_byte title LF = false
  /\ (forall c, first_byte title = Some c ->
                inCutset assistant.title_cutset c = false).
Proof.
  intros Hne H.
  destruct (Title_success conv st Hne H) as (content & _ & -> & _).
  split; [apply title_of_content_length|].
  split; [apply title_of_content_no_newline|].
  intros c. apply title_of_content_first.
Qed.

End TitleFacts.

(** ** Counting the backend calls *)

Section CallFacts.

Lemma backend_calls_app (evs evs' : list Event) :
  backend_calls (evs ++ evs') = backend_calls evs + backend_calls evs'.
Proof.
  unfold backend_calls. now rewrite filter_app, length_app.
Qed.

Lemma backend_calls_tool_events (evs : list Event) :
  tool_events evs -> backend_calls evs = 0.
Proof.
  unfold backend_calls. induction 1 as [|ev evs Hev _ IH]; simpl; [reflexivity|].
  now rewrite Hev.
Qed.

Lemma tool_events_app (evs evs' : list Event) :
  tool_events evs -> tool_events evs' -> tool_events (evs ++ evs').
Proof.
  unfold tool_events. intros. now apply Forall_app.
Qed.

Lemma tool_events_nil : tool_events [].
Proof.
  constructor.
Qed.

Lemma tool_events_run (name args : string) : tool_events [ToolRun name args].
Proof.
  repeat constructor.
Qed.

End CallFacts.

Create HintDb calls.

#[local] Hint Resolve tool_events_nil tool_events_run tool_events_app : calls.

(** Case analysis on an innermost [match], [if] or pair of the goal. *)
Ltac branch :=
  match goal with
  | |- context [match ?x with _ => _ end] =>
      lazymatch x with
      | context [match _ with _ => _ end] => fail
      | _ => destruct x eqn:?
      end
  end.

(** ** The [switch] of assistant.go *)

Section SwitchFacts.

Context {World : Type} (env : Env World).

Lemma switch_case_names (name : string) :
  switch_case name = true ->
  name = "get_weather" \/ name = "get_today_date" \/ name = "get_holidays".
Proof.
  unfold switch_case. intros H.
  destruct (String.eqb_spec name "get_weather"); [now left|].
  destruct (String.eqb_spec name "get_today_date"); [now right; left|].
  destruct (String.eqb_spec name "get_holidays"); [now right; right|].
  discriminate.
Qed.

(** A call whose name has a case: the history grows by exactly one tool
    message that carries the id of the call, whatever the collaborators
    answer; no request goes to the backend. *)
Lemma tool_call_switch_case (call : openai.ToolCall)
    (msgs : list openai.MessageParam) (st : St World) :
  switch_case (openai.Function_Name call) = true ->
  exists content evs st',
    assistant.tool_call_switch env call msgs st
    = (Ok (msgs ++ [openai.ToolMessage content (openai.ID call)]), st')
    /\ calls st' = calls st ++ evs
    /\ tool_events evs.
Proof.
  intros H. unfold assistant.tool_call_switch.
  destruct (switch_case_names _ H) as [-> | [-> | ->]]; cbn [String.eqb Ascii.eqb Bool.eqb];
    unfold bind, perform, ret, assistant.getenv; cbv beta;
    repeat branch;
    try (do 3 eexists; split; [reflexivity|]; cbn [calls];
         split; [reflexivity|auto with calls]);
    try (do 3 eexists; split; [reflexivity|]; cbn [calls];
         split; [symmetry; apply app_nil_r|auto with calls]).
Qed.

(** A call whose name has no case: [Reply] returns at once. *)
Lemma tool_call_switch_default (call : openai.ToolCall)
    (msgs : list openai.MessageParam) (st : St World) :
  switch_case (openai.Function_Name call) = false ->
  assistant.tool_call_switch env call msgs st
  = (Err (errors_New
            ("unknown tool call: " ++ openai.Function_Name call)%string), st).
Proof.
  unfold switch_case, assistant.tool_call_switch. intros H.
  apply orb_false_iff in H as [H H3]. apply orb_false_iff in H as [H1 H2].
  now rewrite H1, H2, H3.
Qed.


(** The loop over any calls sends nothing to the backend. *)
Lemma tool_calls_loop_events (tool_calls : list openai.ToolCall) :
  forall (msgs : list openai.MessageParam) (st st' : St World)
         (r : result (list openai.MessageParam)),
  assistant.tool_calls_loop env tool_calls msgs st = (r, st') ->
  exists evs, calls st' = calls st ++ evs /\ tool_events evs.
Proof.
  induction tool_calls as [|call rest IH]; intros msgs st st' r.
  - cbn. unfold ret. intros H. inversion H; subst.
    exists []. rewrite app_nil_r. auto with calls.
  - cbn [assistant.tool_calls_loop]. unfold bind at 1.
    destruct (switch_case (openai.Function_Name call)) eqn:Hcall.
    + destruct (tool_call_switch_case call msgs st Hcall)
        as (content & evs1 & st1 & E1 & C1 & T1).
      rewrite E1. intros H.
      destruct (IH _ _ _ _ H) as (evs2 & C2 & T2).
      exists (evs1 ++ evs2). rewrite C2, C1, app_assoc. auto with calls.
    + rewrite (tool_call_switch_default call msgs st Hcall).
      unfold ret. intros H. inversion H; subst.
      exists []. rewrite app_nil_r. auto with calls.
Qed.

(** The loop stops at the first call whose name has no case. *)
Lemma tool_calls_loop_default (before : list openai.ToolCall)
    (call : openai.ToolCall) (after : list openai.ToolCall) :
  Forall (fun call => switch_case (openai.Function_Name call) = true) before ->
  switch_case (openai.Function_Name call) = false ->
  forall (msgs : list openai.MessageParam) (st : St World),
  exists evs st',
    assistant.tool_calls_loop env (before ++ call :: after) msgs st
    = (Err (errors_New
              ("unknown tool call: " ++ openai.Function_Name call)%string),
       st')
    /\ calls st' = calls st ++ evs
    /\ tool_events evs.
Proof.
  intros Hbefore Hcall. induction Hbefore as [|c rest Hc _ IH]; intros msgs st.
  - exists [], st. cbn [app assistant.tool_calls_loop]. unfold bind.
    rewrite (tool_call_switch_default call msgs st Hcall).
    rewrite app_nil_r. auto with calls.
  - destruct (tool_call_switch_case c msgs st Hc)
      as (content & evs1 & st1 & E1 & C1 & T1).
    destruct (IH (msgs ++ [openai.ToolMessage content (openai.ID c)]) st1)
      as (evs2 & st2 & E2 & C2 & T2).
    exists (evs1 ++ evs2), st2.
    cbn [app assistant.tool_calls_loop]. unfold bind at 1. rewrite E1, E2.
    rewrite C2, C1, app_assoc. auto with calls.
Qed.

End SwitchFacts.

(** ** [tools.Dispatch] *)

Section DispatchFacts.

Context {World : Type} (env : Env World).

Variable a_tools : list (@tools.Tool World).

(** The scan always ends with one tool message that carries the id of the
    call; no request goes to the backend. *)
Lemma dispatch_scan_answers (scanned : list (@tools.Tool World))
    (call : openai.ToolCall) (functionName arguments : string)
    (st : St World) :
  exists content evs st',
    tools.dispatch_scan scanned call functionName arguments st
    = (openai.ToolMessage content (openai.ID call), st')
    /\ calls st' = calls st ++ evs
    /\ tool_events evs.
Proof.
  induction scanned as [|tool rest IH]; cbn [tools.dispatch_scan].
  - do 2 eexists. exists st. unfold ret. split; [reflexivity|].
    split; [symmetry; apply app_nil_r|auto with calls].
  - destruct (String.eqb (tools.Name tool) functionName); [|exact IH].
    unfold bind, perform, ret; cbv beta.
    repeat branch; do 3 eexists; (split; [reflexivity|]); cbn [calls];
      (split; [reflexivity|auto with calls]).
Qed.

Lemma Dispatch_answers (call : openai.ToolCall) (st : St World) :
  exists content evs st',
    tools.Dispatch a_tools call st
    = (openai.ToolMessage content (openai.ID call), st')
    /\ calls st' = calls st ++ evs
    /\ tool_events evs.
Proof.
  unfold tools.Dispatch.
  destruct (String.eqb (openai.Type_ call) "function");
    [apply dispatch_scan_answers|].
  destruct (String.eqb (openai.Type_ call) "custom");
    [apply dispatch_scan_answers|].
  do 2 eexists. exists st. unfold ret. split; [reflexivity|].
  split; [symmetry; apply app_nil_r|auto with calls].
Qed.

(** A name that no tool has is answered by an "Unknown tool" message, and
    nothing is run. *)
Lemma dispatch_scan_unknown (scanned : list (@tools.Tool World))
    (call : openai.ToolCall) (functionName arguments : string)
    (st : St World) :
  tool_named scanned functionName = false ->
  tools.dispatch_scan scanned call functionName arguments st
  = (openai.ToolMessage ("Unknown tool: " ++ functionName)%string
       (openai.ID call), st).
Proof.
  induction scanned as [|tool rest IH]; cbn [tools.dispatch_scan tool_named existsb];
    [reflexivity|].
  intros H. apply orb_false_iff in H as [H1 H2].
  rewrite H1. now apply IH.
Qed.


(** The loop over the calls of a response appends one answer per call, in
    the order of the calls. *)
Lemma dispatch_loop_answers (tool_calls : list openai.ToolCall) :
  forall (msgs : list openai.MessageParam) (st : St World),
  exists results evs st',
    assistant_tools.tool_calls_loop a_tools tool_calls msgs st
    = (msgs ++ results, st')
    /\ Forall2 answers tool_calls results
    /\ calls st' = calls st ++ evs
    /\ tool_events evs.
Proof.
  induction tool_calls as [|call rest IH]; intros msgs st.
  - exists [], [], st. cbn. rewrite !app_nil_r. repeat split; auto with calls.
  - destruct (Dispatch_answers call st) as (content & evs1 & st1 & E1 & C1 & T1).
    destruct (IH (msgs ++ [openai.ToolMessage content (openai.ID call)]) st1)
      as (results & evs2 & st2 & E2 & A2 & C2 & T2).
    exists (openai.ToolMessage content (openai.ID call) :: results),
           (evs1 ++ evs2), st2.
    cbn [assistant_tools.tool_calls_loop]. unfold bind at 1. rewrite E1.
    rewrite E2, <- app_assoc. cbn [app].
    repeat split; auto with calls.
    + constructor; [now exists content|exact A2].
    + now rewrite C2, C1, app_assoc.
Qed.

End DispatchFacts.

(** ** The reply loop, for both versions *)

Section LoopFacts.

Context {World : Type} (env : Env World).

(** One iteration of the loop of either version. *)
Lemma reply_loop_of_S (v : Version World) (n : nat)
    (msgs : list openai.MessageParam) (st : St World) :
  reply_loop_of env v (S n) msgs st
  = (r <- perform (BackendCall (request_of v msgs))
            (Completions_New env (request_of v msgs)) ;;
     match r with
     | Err err => ret (Err err)
     | Ok resp =>
         match openai.Choices resp with
         | [] => ret (Err (errors_New "no choices returned by OpenAI"))
         | choice :: _ =>
             if Nat.ltb 0 (List.length
                             (openai.ToolCalls (openai.Message choice)))
             then
               r <- carry_out env v (openai.ToolCalls (openai.Message choice))
                      (msgs ++ [openai.ToParam (openai.Message choice)]) ;;
               match r with
               | Err err => ret (Err err)
               | Ok msgs' => reply_loop_of env v n msgs'
               end
             else ret (Ok (openai.Content (openai.Message choice)))
         end
     end) st.
Proof.
  destruct v as [|a_tools]; [reflexivity|].
  cbn [reply_loop_of request_of carry_out assistant_tools.reply_loop].
  unfold bind, perform, ret.
  repeat branch; reflexivity.
Qed.

(** The inner loop sends nothing to the backend. *)
Lemma carry_out_events (v : Version World) (tool_calls : list openai.ToolCall)
    (msgs : list openai.MessageParam) (st st' : St World)
    (r : result (list openai.MessageParam)) :
  carry_out env v tool_calls msgs st = (r, st') ->
  exists evs, calls st' = calls st ++ evs /\ tool_events evs.
Proof.
  destruct v as [|a_tools]; cbn [carry_out].
  - apply tool_calls_loop_events.
  - destruct (dispatch_loop_answers a_tools tool_calls msgs st)
      as (results & evs & st1 & E & _ & C & T).
    unfold bind, ret. rewrite E. intros H. inversion H; subst.
    now exists evs.
Qed.


(** The loop only adds to the record of calls. *)
Lemma reply_loop_extends (v : Version World) (n : nat) :
  forall (msgs : list openai.MessageParam) (st : St World),
  exists evs,
    calls (snd (reply_loop_of env v n msgs st)) = calls st ++ evs
    /\ backend_calls evs <= n.
Proof.
  induction n as [|n IH]; intros msgs st.
  - exists []. destruct v; cbn; rewrite app_nil_r; auto.
  - rewrite reply_loop_of_S. unfold bind at 1, perform at 1.
    destruct (Completions_New env _ (world st)) as [[resp|err] w1];
      [|exists [BackendCall (request_of v msgs)]; cbn; split; [reflexivity|lia]].
    destruct (openai.Choices resp) as [|choice others];
      [exists [BackendCall (request_of v msgs)]; cbn; split; [reflexivity|lia]|].
    destruct (Nat.ltb _ _);
      [|exists [BackendCall (request_of v msgs)]; cbn; split; [reflexivity|lia]].
    unfold bind at 1.
    destruct (carry_out env v _ _ _) as [[msgs'|err] st'] eqn:E;
      destruct (carry_out_events _ _ _ _ E) as (evs & C & T);
      cbn [calls] in C.
    + destruct (IH msgs' st') as (evs' & C' & B').
      exists ([BackendCall (request_of v msgs)] ++ evs ++ evs').
      rewrite C', C, <- !app_assoc. split; [reflexivity|].
      rewrite !backend_calls_app, (backend_calls_tool_events T).
      cbn. lia.
    + exists ([BackendCall (request_of v msgs)] ++ evs).
      cbn [snd ret calls]. rewrite C, <- !app_assoc. split; [reflexivity|].
      rewrite !backend_calls_app, (backend_calls_tool_events T).
      cbn. lia.
Qed.



End LoopFacts.

(** ** [Reply] as a whole *)

Section ReplyFacts.

Context {World : Type} (env : Env World).

(** On a conversation with messages, [Reply] is the loop with 15 iterations
    on the seeded history. *)
Lemma Reply_of_loop (v : Version World) (conv : model.Conversation)
    (st : St World) :
  model.Messages conv <> [] ->
  Reply_of env v conv st
  = reply_loop_of env v 15 (assistant.seed_history conv) st.
Proof.
  intros H. destruct (model.Messages conv) as [|m ms] eqn:E; [congruence|].
  destruct v; cbn [Reply_of reply_loop_of];
    unfold assistant.Reply, assistant_tools.Reply; now rewrite E.
Qed.

(** On a conversation without messages, [Reply] returns an error and touches
    nothing. *)
Lemma Reply_of_empty (v : Version World) (conv : model.Conversation)
    (st : St World) :
  model.Messages conv = [] ->
  Reply_of env v conv st
  = (Err (errors_New "conversation has no messages"), st).
Proof.
  intros H.
  destruct v; cbn [Reply_of]; unfold assistant.Reply, assistant_tools.Reply;
    now rewrite H.
Qed.

(** An answer whose first choice has no tool calls ends the loop with the
    content of that choice, as it is. *)
Lemma reply_loop_plain_text (v : Version World) (n : nat)
    (msgs : list openai.MessageParam) (st : St World)
    (resp : openai.ChatCompletion) (w1 : World)
    (choice : openai.Choice) (others : list openai.Choice) :
  Completions_New env (request_of v msgs) (world st) = (Ok resp, w1) ->
  openai.Choices resp = choice :: others ->
  openai.ToolCalls (openai.Message choice) = [] ->
  reply_loop_of env v (S n) msgs st
  = (Ok (openai.Content (openai.Message choice)),
     {| world := w1;
        calls := calls st ++ [BackendCall (request_of v msgs)] |}).
Proof.
  intros Hresp Hchoices Hcalls.
  rewrite reply_loop_of_S. unfold bind at 1, perform at 1.
  now rewrite Hresp, Hchoices, Hcalls.
Qed.

(** An answer without choices ends the loop with an error. *)
Lemma reply_loop_no_choices (v : Version World) (n : nat)
    (msgs : list openai.MessageParam) (st : St World)
    (resp : openai.ChatCompletion) (w1 : World) :
  Completions_New env (request_of v msgs) (world st) = (Ok resp, w1) ->
  openai.Choices resp = [] ->
  reply_loop_of env v (S n) msgs st
  = (Err (errors_New "no choices returned by OpenAI"),
     {| world := w1;
        calls := calls st ++ [BackendCall (request_of v msgs)] |}).
Proof.
  intros Hresp Hchoices.
  rewrite reply_loop_of_S. unfold bind at 1, perform at 1.
  now rewrite Hresp, Hchoices.
Qed.

(** An error of the backend ends the loop with that error. *)
Lemma reply_loop_backend_error (v : Version World) (n : nat)
    (msgs : list openai.MessageParam) (st : St World)
    (err : error) (w1 : World) :
  Completions_New env (request_of v msgs) (world st) = (Err err, w1) ->
  reply_loop_of env v (S n) msgs st
  = (Err err,
     {| world := w1;
        calls := calls st ++ [BackendCall (request_of v msgs)] |}).
Proof.
  intros Hresp.
  rewrite reply_loop_of_S. unfold bind at 1, perform at 1.
  now rewrite Hresp.
Qed.


End ReplyFacts.

(* ================================================================== *)
(** * The statements of the specification *)
(* ================================================================== *)

Import strings.

(** ** Title generation *)

(** C9.  For a conversation with an empty message list, [Title] returns the
    fixed placeholder "An empty conversation" without an error, and makes no
    backend call: the world and the record of calls are left as they were. *)
Theorem Title_empty_conversation {World : Type} (env : Env World)
    (conv : model.Conversation) (st : St World) :
  model.Messages conv = [] ->
  assistant.Title env conv st = (Ok "An empty conversation", st).
Proof.
  intros H. unfold assistant.Title. now rewrite H.
Qed.

Lemma Title_empty_conversation_witness :
  model.Messages {| model.Messages := [] |} = []
  /\ assistant.Title fixture.env {| model.Messages := [] |}
       (fixture.start [Ok (fixture.text_response "Weather in Barcelona")])
     = (Ok "An empty conversation",
        fixture.start [Ok (fixture.text_response "Weather in Barcelona")]).
Proof.
  split; [reflexivity|].
  apply (Title_empty_conversation fixture.env). reflexivity.
Defined.

(** C2, at the input where the code departs from it.  The backend answers
    a conversation of one message with 79 letters, a space and one more
    letter (81 bytes, nothing to trim).  [Title] succeeds, and because it
    cuts to 80 bytes after trimming, the title it returns ends with the
    space, a byte of the set it had trimmed. *)
Theorem Title_cut_after_trim_ends_with_space :
  fst (assistant.Title fixture.env
         (fixture.user_says "Tell me about Go programming language")
         (fixture.start [Ok (fixture.text_response fixture.long_title)]))
  = Ok (Repeat "a" 79 ++ " ")%string
  /\ len (Repeat "a" 79 ++ " ")%string = 80
  /\ last_byte (Repeat "a" 79 ++ " ")%string = Some SP
  /\ inCutset assistant.title_cutset SP = true.
Proof.
  repeat split; vm_compute; reflexivity.
Qed.

(** ** The reply loop *)

(** C10.  For a conversation with an empty message list, [Reply] (of either
    version) returns the error "conversation has no messages" and makes no
    backend call and no tool run: the world and the record of calls are left
    as they were.  [Title] on the same conversation succeeds. *)
Theorem Reply_empty_conversation {World : Type} (env : Env World)
    (v : Version World) (conv : model.Conversation) (st : St World) :
  model.Messages conv = [] ->
  Reply_of env v conv st
  = (Err (errors_New "conversation has no messages"), st)
  /\ exists title, assistant.Title env conv st = (Ok title, st).
Proof.
  intros H. split; [now apply Reply_of_empty|].
  exists "An empty conversation". unfold assistant.Title. now rewrite H.
Qed.

Lemma Reply_empty_conversation_witness :
  model.Messages {| model.Messages := [] |} = []
  /\ Reply_of fixture.env
       (WithDispatch (assistant_tools.New_tools fixture.env))
       {| model.Messages := [] |}
       (fixture.start [Ok (fixture.text_response "Hello")])
     = (Err (errors_New "conversation has no messages"),
        fixture.start [Ok (fixture.text_response "Hello")]).
Proof.
  split; [reflexivity|].
  apply (Reply_empty_conversation fixture.env). reflexivity.
Defined.

(** C8.  When the conversation has messages and the backend answers the
    first request with a message without tool calls, [Reply] (of either
    version) returns the content of that message byte for byte, and the
    record of calls grows by exactly one entry, that request. *)
Theorem Reply_plain_text_first_round_trip {World : Type} (env : Env World)
    (v : Version World) (conv : model.Conversation) (st : St World)
    (resp : openai.ChatCompletion) (w1 : World)
    (choice : openai.Choice) (others : list openai.Choice) :
  model.Messages conv <> [] ->
  Completions_New env (request_of v (assistant.seed_history conv)) (world st)
  = (Ok resp, w1) ->
  openai.Choices resp = choice :: others ->
  openai.ToolCalls (openai.Message choice) = [] ->
  Reply_of env v conv st
  = (Ok (openai.Content (openai.Message choice)),
     {| world := w1;
        calls := calls st
                 ++ [BackendCall
                       (request_of v (assistant.seed_history conv))] |})
  /\ backend_calls (calls (snd (Reply_of env v conv st)))
     = backend_calls (calls st) + 1.
Proof.
  intros Hne Hresp Hchoices Hcalls.
  rewrite (Reply_of_loop env v conv st Hne).
  rewrite (reply_loop_plain_text env v 14 _ st Hresp Hchoices Hcalls).
  split; [reflexivity|].
  cbn [snd calls]. rewrite backend_calls_app. reflexivity.
Qed.

Lemma Reply_plain_text_first_round_trip_witness :
  Reply_of fixture.env WithSwitch
    (fixture.user_says "What is the weather in Barcelona?")
    (fixture.start [Ok (fixture.text_response "  I cannot tell. ")])
  = (Ok "  I cannot tell. ",
     {| world := [];
        calls := [BackendCall
                    (assistant.reply_params
                       (assistant.seed_history
                          (fixture.user_says
                             "What is the weather in Barcelona?")))] |})
  /\ backend_calls
       (calls (snd (Reply_of fixture.env WithSwitch
                      (fixture.user_says "What is the weather in Barcelona?")
                      (fixture.start
                         [Ok (fixture.text_response "  I cannot tell. ")]))))
     = 0 + 1.
Proof.
  apply (@Reply_plain_text_first_round_trip _ fixture.env WithSwitch
           (fixture.user_says "What is the weather in Barcelona?")
           (fixture.start [Ok (fixture.text_response "  I cannot tell. ")])
           (fixture.text_response "  I cannot tell. ") []
           {| openai.Message :=
                {| openai.Content := "  I cannot tell. ";
                   openai.ToolCalls := [] |} |} []).
  - discriminate.
  - reflexivity.
  - reflexivity.
  - reflexivity.
Defined.

(** C6, at the input where the code departs from it.  The backend answers
    the first request with one choice that has no text and no tool calls.
    [Reply] (of either version) returns the empty string with no error,
    after one backend call. *)
Theorem Reply_empty_answer_is_success (v : Version fixture.Script) :
  Reply_of fixture.env v (fixture.user_says "Hello")
    (fixture.start [Ok (fixture.text_response "")])
  = (Ok "",
     {| world := [];
        calls := [BackendCall
                    (request_of v
                       (assistant.seed_history (fixture.user_says "Hello")))] |}).
Proof.
  rewrite Reply_of_loop by discriminate.
  now rewrite (@reply_loop_plain_text _ fixture.env v 14 _ _
                 (fixture.text_response "") []
                 {| openai.Message :=
                      {| openai.Content := ""; openai.ToolCalls := [] |} |} []).
Qed.



(** ** The coordinator *)

(** C7.  When title generation fails and reply generation succeeds, the
    coordinator succeeds and returns the default title "Untitled
    conversation" together with the reply. *)
Theorem title_failure_is_not_fatal (a : chat.Assistant)
    (conv : model.Conversation) (err : error) (replyText : string) :
  chat.Title a conv = Err err ->
  chat.Reply a conv = Ok replyText ->
  chat.generate a conv = Ok (chat.defaultTitle, replyText).
Proof.
  intros Ht Hr. unfold chat.generate. now rewrite Ht, Hr.
Qed.

Lemma title_failure_is_not_fatal_witness :
  chat.generate (chat.as_Assistant fixture.title_fails)
    (fixture.user_says "Test message")
  = Ok ("Untitled conversation", "Assistant reply works fine").
Proof.
  apply (@title_failure_is_not_fatal
           (chat.as_Assistant fixture.title_fails)
           (fixture.user_says "Test message")
           (errors_New "simulated title generation error")
           "Assistant reply works fine").
  - reflexivity.
  - reflexivity.
Defined.

(** ** Tool calls *)

Section AnswerFacts.

Context {World : Type} (env : Env World).


(** The message [Dispatch] returns is the answer to the call. *)
Lemma dispatch_answered (a_tools : list (@tools.Tool World))
    (call : openai.ToolCall) (description : string) (st st' : St World) :
  tools.Dispatch a_tools call st
  = (openai.ToolMessage description (openai.ID call), st') ->
  answered_with env (WithDispatch a_tools) call description st st'.
Proof.
  intros H rest msgs. cbn [carry_out assistant_tools.tool_calls_loop].
  unfold bind. now rewrite H.
Qed.

(** [Dispatch] scans for the requested name. *)
Lemma Dispatch_requested (a_tools : list (@tools.Tool World))
    (call : openai.ToolCall) (name args : string) (st : St World) :
  requested call name args ->
  tools.Dispatch a_tools call st = tools.dispatch_scan a_tools call name args st.
Proof.
  unfold tools.Dispatch.
  intros [(Ht & -> & ->) | (Ht & -> & ->)]; rewrite Ht; reflexivity.
Qed.

End AnswerFacts.





(** C1, where the code departs from it.  The tools are those [New] sets,
    none of which is named "get_stock_price"; the backend asks for that
    tool and then answers in plain text.  [Reply] on [tools.Dispatch] does
    not fail: it makes a second backend call, whose history ends with the
    tool message "Unknown tool: get_stock_price" for the call, and returns
    the text. *)
Lemma unknown_tool_is_answered_not_fatal :
  tool_named (assistant_tools.New_tools fixture.env) "get_stock_price" = false
  /\ fst (Reply_of fixture.env
            (WithDispatch (assistant_tools.New_tools fixture.env))
            (fixture.user_says "How is ACME doing?")
            (fixture.start fixture.unknown_then_text))
     = Ok "done"
  /\ backend_calls
       (calls (snd (Reply_of fixture.env
                      (WithDispatch (assistant_tools.New_tools fixture.env))
                      (fixture.user_says "How is ACME doing?")
                      (fixture.start fixture.unknown_then_text))))
     = 2
  /\ exists first_request history,
       calls (snd (Reply_of fixture.env
                     (WithDispatch (assistant_tools.New_tools fixture.env))
                     (fixture.user_says "How is ACME doing?")
                     (fixture.start fixture.unknown_then_text)))
       = [ BackendCall first_request;
           BackendCall
             (assistant_tools.reply_params
                (assistant_tools.New_tools fixture.env)
                (history
                 ++ [openai.ToolMessage "Unknown tool: get_stock_price"
                       "call_1"])) ].
Proof.
  split; [reflexivity|]. split; [reflexivity|]. split; [reflexivity|].
  eexists. eexists [_; _; _]. reflexivity.
Qed.

(** C1, as the code has it.  With the [switch] of assistant.go: when a
    response holds a call whose name has no case, after calls that have one,
    [Reply] returns the error "unknown tool call: " with the name, and no
    request goes to the backend after the one that brought the response.
    With [tools.Dispatch]: a call whose name no tool has is answered with
    the tool message "Unknown tool: " with the name, nothing is run, and the
    loop goes on with the next call. *)
Theorem unknown_tool_by_version {World : Type} (env : Env World) :
  (forall (n : nat) (msgs : list openai.MessageParam) (st : St World)
          (resp : openai.ChatCompletion) (w1 : World)
          (choice : openai.Choice) (others : list openai.Choice)
          (before : list openai.ToolCall) (call : openai.ToolCall)
          (after : list openai.ToolCall),
      Completions_New env (assistant.reply_params msgs) (world st)
      = (Ok resp, w1) ->
      openai.Choices resp = choice :: others ->
      openai.ToolCalls (openai.Message choice) = before ++ call :: after ->
      Forall (fun c => switch_case (openai.Function_Name c) = true) before ->
      switch_case (openai.Function_Name call) = false ->
      fst (assistant.reply_loop env (S n) msgs st)
      = Err (errors_New
               ("unknown tool call: " ++ openai.Function_Name call)%string)
      /\ backend_calls (calls (snd (assistant.reply_loop env (S n) msgs st)))
         = backend_calls (calls st) + 1)
  /\ (forall (a_tools : list (@tools.Tool World)) (call : openai.ToolCall)
             (name args : string) (st : St World),
         requested call name args ->
         tool_named a_tools name = false ->
         answered_with env (WithDispatch a_tools) call
           ("Unknown tool: " ++ name)%string st st).
Proof.
  split.
  - intros n msgs st resp w1 choice others before call after
           Hresp Hchoices Hcalls Hbefore Hcall.
    destruct (@tool_calls_loop_default _ env before call after Hbefore Hcall
                (msgs ++ [openai.ToParam (openai.Message choice)])
                {| world := w1;
                   calls := calls st
                            ++ [BackendCall (assistant.reply_params msgs)] |})
      as (evs & st' & E & C & T).
    assert (Heq : assistant.reply_loop env (S n) msgs st
                  = (Err (errors_New
                            ("unknown tool call: "
                             ++ openai.Function_Name call)%string), st')).
    { cbn [assistant.reply_loop]. unfold bind at 1, perform at 1.
      rewrite Hresp, Hchoices. cbv zeta. rewrite Hcalls.
      replace (Nat.ltb 0 (List.length (before ++ call :: after))) with true
        by (destruct before; reflexivity).
      unfold bind at 1. now rewrite E. }
    rewrite Heq. cbn [fst snd]. split; [reflexivity|].
    rewrite C. cbn [calls].
    rewrite !backend_calls_app, (backend_calls_tool_events T). cbn. lia.
  - intros a_tools call name args st Hreq Hnone.
    apply dispatch_answered.
    rewrite (Dispatch_requested _ st Hreq).
    now apply dispatch_scan_unknown.
Qed.

Lemma unknown_tool_by_version_witness :
  fst (assistant.reply_loop fixture.env 15
         (assistant.seed_history (fixture.user_says "How is ACME doing?"))
         (fixture.start fixture.unknown_then_text))
  = Err (errors_New "unknown tool call: get_stock_price")
  /\ backend_calls
       (calls (snd (assistant.reply_loop fixture.env 15
                      (assistant.seed_history
                         (fixture.user_says "How is ACME doing?"))
                      (fixture.start fixture.unknown_then_text))))
     = 0 + 1.
Proof.
  apply (proj1 (unknown_tool_by_version fixture.env) 14
           (assistant.seed_history (fixture.user_says "How is ACME doing?"))
           (fixture.start fixture.unknown_then_text)
           (fixture.tool_response
              [fixture.function_call "call_1" "get_stock_price" "{}"])
           [Ok (fixture.text_response "done")]
           {| openai.Message :=
                {| openai.Content := "";
                   openai.ToolCalls :=
                     [fixture.function_call "call_1" "get_stock_price" "{}"] |} |}
           [] [] (fixture.function_call "call_1" "get_stock_price" "{}") []).
  - reflexivity.
  - reflexivity.
  - reflexivity.
  - constructor.
  - reflexivity.
Defined.

(** ** Scenarios *)

(** The other half of the coordinator's policy: a failure of the reply is
    the failure of the operation, whatever the title task did. *)
Lemma reply_failure_is_fatal (a : chat.Assistant) (conv : model.Conversation)
    (err : error) :
  chat.Reply a conv = Err err -> chat.generate a conv = Err err.
Proof.
  intros Hr. unfold chat.generate. now rewrite Hr.
Qed.

(** The backend asks for the weather and the date, then answers in plain
    text: both versions return the text after two backend calls, and the
    second request ends with the two tool messages in the order of the
    calls. *)
Example two_calls_then_text_switch :
  Reply_of fixture.env WithSwitch
    (fixture.user_says "What is the weather in Barcelona?")
    (fixture.start fixture.two_calls_then_text)
  = (Ok "Sunny, on a Sunday.",
     {| world := [];
        calls :=
          [ BackendCall (assistant.reply_params fixture.asks_weather);
            ToolRun "get_weather" "Barcelona";
            ToolRun "get_today_date" "";
            BackendCall
              (assistant.reply_params
                 (fixture.asks_weather
                  ++ [ openai.ToParam
                         {| openai.Content := "";
                            openai.ToolCalls := fixture.two_calls |};
                       openai.ToolMessage "Sunny in Barcelona" "call_1";
                       openai.ToolMessage "2025-12-07T15:30:00Z" "call_2" ])) ] |}).
Proof.
  reflexivity.
Qed.

Example two_calls_then_text_dispatch :
  fst (Reply_of fixture.env
         (WithDispatch (assistant_tools.New_tools fixture.env))
         (fixture.user_says "What is the weather in Barcelona?")
         (fixture.start fixture.two_calls_then_text))
  = Ok "Sunny, on a Sunday."
  /\ backend_calls
       (calls (snd (Reply_of fixture.env
                      (WithDispatch (assistant_tools.New_tools fixture.env))
                      (fixture.user_says "What is the weather in Barcelona?")
                      (fixture.start fixture.two_calls_then_text))))
     = 2.
Proof.
  split; reflexivity.
Qed.

(** A title wrapped in quotes and broken over two lines. *)
Example title_of_quoted_lines :
  assistant.title_of_content
    (String DQUOTE
       ("Weather" ++ String LF ("in Barcelona" ++ String DQUOTE " ")))%string
  = "Weather in Barcelona".
Proof.
  reflexivity.
Qed.

(** White space only, as [strings.TrimSpace] sees it: a tab and a no-break
    space (U+00A0); and a string that is not. *)
Example TrimSpace_is_empty_examples :
  TrimSpace_is_empty (String TAB (String "194" (String "160" EmptyString)))
  = true
  /\ TrimSpace_is_empty " - " = false.
Proof.
  split; reflexivity.
Qed.

(* ================================================================== *)
(** * Further properties of the code *)
(* ================================================================== *)

(** ** The status-capturing writer and the middlewares *)

Section TelemetryFacts.

Import telemetry.

Context {W : Type} `{ResponseWriter W}.

(** Once a header went out, the wrapper passes on the Write calls and
    nothing else, and keeps its status. *)
Lemma serve_written (handler : list Call) (w : W) (code : Z) :
  serve handler {| inner := w; statusCode := code; written := true |}
  = {| inner := serve (writes handler) w;
       statusCode := code;
       written := true |}.
Proof.
  revert w. induction handler as [|[c|b] rest IH]; intros w; cbn.
  - reflexivity.
  - apply IH.
  - unfold responseWriter_Write. cbn.
    destruct (Write b w) as [res w1] eqn:E. cbn. rewrite IH. reflexivity.
Qed.

(** A handler run on a fresh wrapper. *)
Lemma serve_fresh_wrapper (handler : list Call) (w : W) :
  serve handler (wrap w)
  = {| inner := serve (forwarded handler) w;
       statusCode := first_status handler;
       written := negb (Nat.eqb (List.length handler) 0) |}.
Proof.
  destruct handler as [|[c|b] rest]; cbn.
  - reflexivity.
  - unfold responseWriter_WriteHeader, wrap. cbn. apply serve_written.
  - unfold responseWriter_Write, responseWriter_WriteHeader, wrap. cbn.
    destruct (Write b (WriteHeader StatusOK w)) as [res w1] eqn:E. cbn.
    rewrite serve_written. reflexivity.
Qed.

Lemma writes_writes (handler : list Call) :
  writes (writes handler) = writes handler.
Proof.
  induction handler as [|[c|b] rest IH]; cbn; congruence.
Qed.

(** What one wrapper passes on, a second wrapper passes on unchanged. *)
Lemma forwarded_forwarded (handler : list Call) :
  forwarded (forwarded handler) = forwarded handler
  /\ first_status (forwarded handler) = first_status handler.
Proof.
  destruct handler as [|c rest]; [split; reflexivity|].
  split; [|reflexivity].
  destruct c as [code|b]; cbn; now rewrite writes_writes.
Qed.

End TelemetryFacts.

Section MiddlewareFacts.

Import telemetry.

Context {W : Type} `{ResponseWriter W}.

Lemma MetricsMiddleware_plain (duration : Z) (handler : list Call)
    (r : Request) (w : W) (t : Telemetry) :
  MetricsMiddleware duration (plain handler) r w t
  = (serve (forwarded handler) w,
     {| measurements :=
          measurements t
          ++ [ RequestCount_Add 1 (metric_attrs r (first_status handler));
               RequestDuration_Record duration
                 (metric_attrs r (first_status handler)) ]
          ++ (if Z.leb 400 (first_status handler)
              then [ErrorCount_Add 1 (metric_attrs r (first_status handler))]
              else []);
        spans := spans t |}).
Proof.
  unfold MetricsMiddleware, plain.
  rewrite serve_fresh_wrapper. cbn [inner statusCode].
  unfold metric_attrs.
  destruct (Z.leb 400 (first_status handler));
    rewrite <- ?app_assoc; cbn [app]; rewrite ?app_nil_r; reflexivity.
Qed.

End MiddlewareFacts.

Section TelemetryStatements.

Import telemetry.

Context {W : Type} `{ResponseWriter W}.

(** X1.  A handler run on a fresh wrapper: the captured status is the code
    of the handler's first call if that is a WriteHeader and 200 otherwise;
    the wrapped writer receives exactly one WriteHeader, with that status,
    before anything else, then every Write in order, and no later
    WriteHeader; if the handler does nothing, the wrapped writer receives
    nothing and the status stays 200. *)
Theorem responseWriter_first_status_only (handler : list Call) (w : W) :
  serve handler (wrap w)
  = {| inner := serve (forwarded handler) w;
       statusCode := first_status handler;
       written := negb (Nat.eqb (List.length handler) 0) |}.
Proof.
  apply serve_fresh_wrapper.
Qed.

(** X2.  [MetricsMiddleware] around a handler adds one to the request
    counter and records the duration, both with the method, the path and
    the captured status; it adds one to the error counter exactly when that
    status is 400 or more; and it leaves the spans alone. *)
Theorem MetricsMiddleware_records (duration : Z) (handler : list Call)
    (r : Request) (w : W) (t : Telemetry) :
  MetricsMiddleware duration (plain handler) r w t
  = (serve (forwarded handler) w,
     {| measurements :=
          measurements t
          ++ [ RequestCount_Add 1 (metric_attrs r (first_status handler));
               RequestDuration_Record duration
                 (metric_attrs r (first_status handler)) ]
          ++ (if Z.leb 400 (first_status handler)
              then [ErrorCount_Add 1 (metric_attrs r (first_status handler))]
              else []);
        spans := spans t |}).
Proof.
  apply MetricsMiddleware_plain.
Qed.

(** X3.  The stack of main.go, tracing around metrics around the handler:
    the span and the measurements carry the same status, the span is marked
    as an error exactly when the error counter is incremented, and the
    writer underneath receives what a single wrapper would pass on. *)
Theorem tracing_and_metrics_agree (duration : Z) (handler : list Call)
    (r : Request) (w : W) (t : Telemetry) :
  TracingMiddleware (MetricsMiddleware duration (plain handler) r) r w t
  = (serve (forwarded handler) w,
     {| measurements :=
          measurements t
          ++ [ RequestCount_Add 1 (metric_attrs r (first_status handler));
               RequestDuration_Record duration
                 (metric_attrs r (first_status handler)) ]
          ++ (if Z.leb 400 (first_status handler)
              then [ErrorCount_Add 1 (metric_attrs r (first_status handler))]
              else []);
        spans :=
          spans t
          ++ [ {| span_name := (Method r ++ " " ++ URL_Path r)%string;
                  span_attrs :=
                    [ attribute_String "http.method" (Method r);
                      attribute_String "http.url" (URL_String r);
                      attribute_String "http.path" (URL_Path r);
                      attribute_String "http.scheme" (URL_Scheme r);
                      attribute_String "http.host" (Host r);
                      attribute_Int "http.status_code"
                        (first_status handler) ]
                    ++ (if Z.leb 400 (first_status handler)
                        then [attribute_Bool "error" true] else []) |} ] |}).
Proof.
  unfold TracingMiddleware.
  rewrite MetricsMiddleware_plain.
  rewrite serve_fresh_wrapper. cbn [inner statusCode measurements spans].
  destruct (forwarded_forwarded handler) as [-> ->].
  destruct (Z.leb 400 (first_status handler));
    cbn [app]; rewrite ?app_nil_r; reflexivity.
Qed.

End TelemetryStatements.

(** ** The weather client *)

Section WeatherFacts.

Context {World Forecast CurrentWeather : Type}
        (http : weather.Http World Forecast CurrentWeather).

Lemma clamp_days_range (days : Z) :
  weather.clamp_days days = Z.max 1 (Z.min days 10).
Proof.
  unfold weather.clamp_days. cbv zeta.
  destruct (Z.ltb_spec days 1);
    [destruct (Z.ltb_spec 10 1)|destruct (Z.ltb_spec 10 days)]; lia.
Qed.

Lemma clamp_days_idempotent (days : Z) :
  weather.clamp_days (weather.clamp_days days) = weather.clamp_days days.
Proof.
  rewrite !clamp_days_range. lia.
Qed.

(** X4.  A client made by [NewClient] when WEATHER_API_KEY is empty or
    unset: both calls return the error "WEATHER_API_KEY environment variable
    not set" and leave the world as it was, so no HTTP request is made. *)
Theorem weather_client_without_key (getenv : string -> string)
    (location : string) (days : Z) (w : World) :
  getenv "WEATHER_API_KEY" = "" ->
  weather.GetCurrentWeather http (weather.NewClient getenv) location w
  = (Err (errors_New "WEATHER_API_KEY environment variable not set"), w)
  /\ weather.GetForecast http (weather.NewClient getenv) location days w
     = (Err (errors_New "WEATHER_API_KEY environment variable not set"), w).
Proof.
  intros H.
  unfold weather.GetCurrentWeather, weather.GetForecast, weather.NewClient,
    weather.NewClientWithKey.
  cbn [weather.apiKey]. rewrite H. split; reflexivity.
Qed.

(** X5.  [GetForecast] brings the number of days into the range 1..10
    before anything depends on it: a call with [days] is the call with 1
    when [days] is below 1, with 10 when it is above 10, and the number of
    days in the URL of the request is always between 1 and 10. *)
Theorem GetForecast_clamps_days (c : weather.Client) (location : string)
    (days : Z) (w : World) :
  weather.GetForecast http c location days w
  = weather.GetForecast http c location (Z.max 1 (Z.min days 10)) w
  /\ (1 <= Z.max 1 (Z.min days 10) <= 10)%Z.
Proof.
  split; [|lia].
  unfold weather.GetForecast.
  rewrite <- clamp_days_range, clamp_days_idempotent. reflexivity.
Qed.

(** X6.  [GetForecast] returns a forecast only if the client has a key,
    the request for the URL with the clamped days could be made, the service
    answered it with status 200, and the body decoded to that forecast; the
    world is then the one the HTTP call left. *)
Theorem GetForecast_success (c : weather.Client) (location : string)
    (days : Z) (w w' : World) (forecast : Forecast) :
  weather.GetForecast http c location days w = (Ok forecast, w') ->
  weather.apiKey c <> ""
  /\ exists req body,
       weather.NewRequest http
         (weather.forecast_url http c location (Z.max 1 (Z.min days 10)))
       = Ok req
       /\ weather.Do http req w
          = (Ok {| weather.StatusCode := 200; weather.Body := body |}, w')
       /\ weather.Decode_forecast http body = Ok forecast.
Proof.
  unfold weather.GetForecast. rewrite clamp_days_range.
  destruct (String.eqb_spec (weather.apiKey c) ""); [discriminate|].
  destruct (weather.NewRequest http _) as [req|err] eqn:Ereq; [|discriminate].
  unfold bind, ret.
  destruct (weather.Do http req w) as [[[code body]|err] w1] eqn:Edo;
    [|discriminate].
  cbn [weather.StatusCode weather.Body].
  destruct (Z.eqb_spec code weather.StatusOK) as [->|Hcode]; [|discriminate].
  cbn [negb].
  destruct (weather.Decode_forecast http body) as [f|err] eqn:Edec;
    [|discriminate].
  intros Heq. inversion Heq; subst.
  split; [assumption|]. exists req, body. repeat split; assumption.
Qed.

(** X7.  When the service answers the request of [GetCurrentWeather] with
    a status other than 200, the call returns an error whose text holds the
    status and the body, and the body is not decoded. *)
Theorem GetCurrentWeather_bad_status (c : weather.Client) (location : string)
    (w w' : World) (req : string) (resp : weather.Response) :
  weather.apiKey c <> "" ->
  weather.NewRequest http (weather.current_url http c location) = Ok req ->
  weather.Do http req w = (Ok resp, w') ->
  weather.StatusCode resp <> 200%Z ->
  weather.GetCurrentWeather http c location w
  = (Err (errors_New
            ("weather API returned status "
             ++ weather.itoa (weather.StatusCode resp) ++ ": "
             ++ weather.Body resp)%string), w').
Proof.
  intros Hkey Hreq Hdo Hcode. unfold weather.GetCurrentWeather.
  destruct (String.eqb_spec (weather.apiKey c) ""); [contradiction|].
  rewrite Hreq. unfold bind, ret. rewrite Hdo.
  destruct (Z.eqb_spec (weather.StatusCode resp) weather.StatusOK);
    [contradiction|reflexivity].
Qed.

End WeatherFacts.

Lemma weather_client_without_key_witness :
  weather.GetCurrentWeather (doubles.http_answering 200 "sunny")
    (weather.NewClient (fun name => "")) "Barcelona" 0
  = (Err (errors_New "WEATHER_API_KEY environment variable not set"), 0)
  /\ weather.GetForecast (doubles.http_answering 200 "sunny")
       (weather.NewClient (fun name => "")) "Barcelona" 3 0
     = (Err (errors_New "WEATHER_API_KEY environment variable not set"), 0).
Proof.
  apply (@weather_client_without_key _ _ _ (doubles.http_answering 200 "sunny")
           (fun name => "") "Barcelona" 3%Z 0).
  reflexivity.
Defined.

Lemma GetForecast_success_witness :
  weather.apiKey (weather.NewClientWithKey "k") <> ""
  /\ exists req body,
       weather.NewRequest (doubles.http_answering 200 "sunny")
         (weather.forecast_url (doubles.http_answering 200 "sunny")
            (weather.NewClientWithKey "k") "London" (Z.max 1 (Z.min 15 10)))
       = Ok req
       /\ weather.Do (doubles.http_answering 200 "sunny") req 0
          = (Ok {| weather.StatusCode := 200; weather.Body := body |}, 1)
       /\ weather.Decode_forecast (doubles.http_answering 200 "sunny") body
          = Ok "sunny".
Proof.
  apply (@GetForecast_success _ _ _ (doubles.http_answering 200 "sunny")
           (weather.NewClientWithKey "k") "London" 15%Z 0 1 "sunny").
  reflexivity.
Defined.

Lemma GetCurrentWeather_bad_status_witness :
  weather.GetCurrentWeather
    (doubles.http_answering 400 "No matching location found.")
    (weather.NewClientWithKey "k") "Atlantis" 0
  = (Err (errors_New
            "weather API returned status 400: No matching location found."),
     1).
Proof.
  apply (@GetCurrentWeather_bad_status _ _ _
           (doubles.http_answering 400 "No matching location found.")
           (weather.NewClientWithKey "k") "Atlantis" 0 1
           "https://api.weatherapi.com/v1/current.json?key=k&q=Atlantis&aqi=no"
           {| weather.StatusCode := 400;
              weather.Body := "No matching location found." |}).
  - discriminate.
  - reflexivity.
  - reflexivity.
  - discriminate.
Defined.

(** X8.  A weather call that decodes, served by a client without a key:
    [Dispatch] over the tools of [New] answers it with "Tool failed: failed
    to fetch weather: WEATHER_API_KEY environment variable not set" (with
    "weather forecast" when forecast days were asked for), the [switch]
    answers it with "Failed to fetch weather: ..." in the same way, and in
    both cases the world is left as it was: the model is told, and no HTTP
    request is made. *)
Theorem missing_key_is_told_to_the_model {World : Type} (env : Env World)
    (http : weather.Http World (Forecast env) (CurrentWeather env))
    (call : openai.ToolCall) (a : WeatherArgs) (st : St World) :
  openai.Type_ call = "function" ->
  openai.Function_Name call = "get_weather" ->
  json_Unmarshal_weather env (openai.Function_Arguments call) = Ok a ->
  tools.Dispatch
    (assistant_tools.New_tools
       (with_weather_client env http (weather.NewClientWithKey "")))
    call st
  = (openai.ToolMessage
       (if Z.ltb 0 (ForecastDays a)
        then "Tool failed: failed to fetch weather forecast: WEATHER_API_KEY environment variable not set"
        else "Tool failed: failed to fetch weather: WEATHER_API_KEY environment variable not set")
       (openai.ID call),
     after_run st (world st) "get_weather" (openai.Function_Arguments call))
  /\ forall msgs,
       assistant.tool_call_switch
         (with_weather_client env http (weather.NewClientWithKey ""))
         call msgs st
       = (Ok (msgs
              ++ [openai.ToolMessage
                    (if Z.ltb 0 (ForecastDays a)
                     then "Failed to fetch weather forecast: WEATHER_API_KEY environment variable not set"
                     else "Failed to fetch weather: WEATHER_API_KEY environment variable not set")
                    (openai.ID call)]),
          after_run st (world st) "get_weather"
            (openai.Function_Arguments call)).
Proof.
  intros Htype Hname Hdec. split.
  - unfold tools.Dispatch. rewrite Htype. cbn [String.eqb Ascii.eqb Bool.eqb].
    rewrite Hname.
    cbn [assistant_tools.New_tools tools.dispatch_scan tools.WeatherTool
         tools.Name tools.Handle String.eqb Ascii.eqb Bool.eqb].
    unfold bind at 1, perform, tools.WeatherTool_Handle.
    cbn [json_Unmarshal_weather with_weather_client]. rewrite Hdec.
    destruct (Z.ltb 0 (ForecastDays a)); reflexivity.
  - intros msgs. unfold assistant.tool_call_switch. rewrite Hname.
    cbn [String.eqb Ascii.eqb Bool.eqb json_Unmarshal_weather
         with_weather_client].
    rewrite Hdec.
    destruct (Z.ltb 0 (ForecastDays a)); reflexivity.
Qed.

Lemma missing_key_is_told_to_the_model_witness :
  tools.Dispatch
    (assistant_tools.New_tools
       (with_weather_client doubles.env_down
          (doubles.http_answering 200 "sunny") (weather.NewClientWithKey "")))
    (fixture.function_call "call_1" "get_weather" "Barcelona")
    (fixture.start 0)
  = (openai.ToolMessage
       "Tool failed: failed to fetch weather: WEATHER_API_KEY environment variable not set"
       "call_1",
     after_run (fixture.start 0) 0 "get_weather" "Barcelona")
  /\ forall msgs,
       assistant.tool_call_switch
         (with_weather_client doubles.env_down
            (doubles.http_answering 200 "sunny") (weather.NewClientWithKey ""))
         (fixture.function_call "call_1" "get_weather" "Barcelona") msgs
         (fixture.start 0)
       = (Ok (msgs
              ++ [openai.ToolMessage
                    "Failed to fetch weather: WEATHER_API_KEY environment variable not set"
                    "call_1"]),
          after_run (fixture.start 0) 0 "get_weather" "Barcelona").
Proof.
  apply (@missing_key_is_told_to_the_model _ doubles.env_down
           (doubles.http_answering 200 "sunny")
           (fixture.function_call "call_1" "get_weather" "Barcelona")
           {| Location := "Barcelona"; ForecastDays := 0 |}
           (fixture.start 0)).
  - reflexivity.
  - reflexivity.
  - reflexivity.
Defined.

(** ** The time zone adapter *)

Section TimezoneFacts.

Context {World Location Instant : Type}
        (clock : timezone.Clock World Location Instant).

Lemma string_app_assoc (s t u : string) :
  ((s ++ t) ++ u)%string = (s ++ (t ++ u))%string.
Proof.
  induction s as [|c s IH]; cbn; [reflexivity|now rewrite IH].
Qed.

Lemma ends_with_app (s t suffix : string) :
  (exists head, t = (head ++ suffix)%string) ->
  exists head, (s ++ t)%string = (head ++ suffix)%string.
Proof.
  intros [head ->]. exists (s ++ head)%string. now rewrite string_app_assoc.
Qed.

Lemma ends_with_cons (c : ascii) (t suffix : string) :
  (exists head, t = (head ++ suffix)%string) ->
  exists head, String c t = (head ++ suffix)%string.
Proof.
  intros [head ->]. now exists (String c head).
Qed.

(** X9.  When [Handle] of the time zone adapter fails (arguments that do
    not decode, an unknown source or target zone, a time that is not
    RFC 3339), the world is as it was: the clock has not been read. *)
Theorem timezone_failure_reads_no_clock (args : string) (w w' : World)
    (err : error) :
  timezone.Handle clock args w = (Err err, w') -> w' = w.
Proof.
  unfold timezone.Handle, bind, ret.
  repeat branch; intros Heq; inversion Heq; reflexivity.
Qed.

(** X10.  A conversion between a zone and itself succeeds with a text that
    ends with "Time difference: same time". *)
Theorem timezone_same_zone (args : string) (params : timezone.Params)
    (w w' : World) (res : string) :
  timezone.json_Unmarshal clock args = Ok params ->
  timezone.FromTimezone params = timezone.ToTimezone params ->
  timezone.Handle clock args w = (Ok res, w') ->
  exists head, res = (head ++ "Time difference: same time")%string.
Proof.
  intros Hdec Hsame. unfold timezone.Handle. rewrite Hdec, <- Hsame.
  destruct (timezone.LoadLocation clock (timezone.FromTimezone params))
    as [loc|e]; [|discriminate].
  assert (Hconv : forall t,
             exists head,
               timezone.conversion clock params loc loc t
               = (head ++ "Time difference: same time")%string).
  { intros t. unfold timezone.conversion. cbv zeta.
    rewrite Z.sub_diag. cbn [Z.ltb Z.compare].
    repeat first [ now exists EmptyString
                 | apply ends_with_app | apply ends_with_cons ]. }
  unfold bind, ret.
  destruct (_ || _).
  - destruct (timezone.Now clock w) as [t w1]. intros Heq.
    inversion Heq; subst. apply Hconv.
  - destruct (timezone.Parse_RFC3339 clock _) as [t|e]; [|discriminate].
    intros Heq. inversion Heq; subst. apply Hconv.
Qed.

(** X11.  With a time given in the arguments (neither empty nor "now"),
    [Handle] never reads the clock, whatever its result. *)
Theorem timezone_explicit_time_reads_no_clock (args : string)
    (params : timezone.Params) (w : World) :
  timezone.json_Unmarshal clock args = Ok params ->
  timezone.Time_ params <> "" ->
  timezone.Time_ params <> "now" ->
  snd (timezone.Handle clock args w) = w.
Proof.
  intros Hdec Hempty Hnow. unfold timezone.Handle. rewrite Hdec.
  destruct (String.eqb_spec (timezone.Time_ params) ""); [contradiction|].
  destruct (String.eqb_spec (timezone.Time_ params) "now"); [contradiction|].
  cbn [orb]. unfold ret. repeat branch; reflexivity.
Qed.

End TimezoneFacts.

Lemma timezone_failure_reads_no_clock_witness :
  timezone.Handle doubles.clock "{invalid json}" 100%Z
  = (Err (fmt_Errorf "invalid timezone parameters: "
            (external "invalid character 'i'")), 100%Z)
  /\ 100%Z = 100%Z.
Proof.
  split; [reflexivity|].
  apply (@timezone_failure_reads_no_clock _ _ _ doubles.clock
           "{invalid json}" 100%Z 100%Z
           (fmt_Errorf "invalid timezone parameters: "
              (external "invalid character 'i'"))).
  reflexivity.
Defined.

Lemma timezone_same_zone_witness :
  exists head,
    "Time Conversion:
From: 2025-12-15 14:00:00 (UTC)
To:   2025-12-15 14:00:00 (UTC)
Time difference: same time"
    = (head ++ "Time difference: same time")%string.
Proof.
  apply (@timezone_same_zone _ _ _ doubles.clock "UTC"
           {| timezone.Time_ := "now";
              timezone.FromTimezone := "UTC";
              timezone.ToTimezone := "UTC" |}
           100%Z 101%Z).
  - reflexivity.
  - reflexivity.
  - reflexivity.
Defined.

Lemma timezone_explicit_time_reads_no_clock_witness :
  snd (timezone.Handle doubles.clock "at noon" 100%Z) = 100%Z.
Proof.
  apply (@timezone_explicit_time_reads_no_clock _ _ _ doubles.clock "at noon"
           {| timezone.Time_ := "2025-12-15T12:00:00Z";
              timezone.FromTimezone := "UTC";
              timezone.ToTimezone := "Asia/Tokyo" |}
           100%Z).
  - reflexivity.
  - discriminate.
  - discriminate.
Defined.

(** ** The history [Reply] starts from, and the titles *)

Section HistoryFacts.

Import strings.

Lemma seed_fold (messages : list model.Message) :
  forall acc : list openai.MessageParam,
    fold_left
      (fun msgs m =>
         if String.eqb (model.Role_ m) model.RoleUser then
           msgs ++ [openai.UserMessage (model.Content m)]
         else if String.eqb (model.Role_ m) model.RoleAssistant then
           msgs ++ [openai.AssistantMessage (model.Content m)]
         else msgs)
      messages acc
    = acc ++ flat_map history_entry messages.
Proof.
  induction messages as [|m rest IH]; intros acc; cbn [fold_left flat_map].
  - now rewrite app_nil_r.
  - rewrite IH. unfold history_entry at 2.
    destruct (String.eqb (model.Role_ m) model.RoleUser);
      [now rewrite <- app_assoc|].
    destruct (String.eqb (model.Role_ m) model.RoleAssistant);
      [now rewrite <- app_assoc|reflexivity].
Qed.

(** X12.  The history [Reply] starts from is the system prompt followed, in
    the order of the conversation, by one user message for every message of
    role "user" and one assistant message for every message of role
    "assistant", with the contents unchanged; a message of any other role
    contributes nothing. *)
Theorem seed_history_entries (conv : model.Conversation) :
  assistant.seed_history conv
  = openai.SystemMessage assistant.reply_prompt
    :: flat_map history_entry (model.Messages conv).
Proof.
  unfold assistant.seed_history. now rewrite seed_fold.
Qed.

Lemma substring_prefix_full_length (s : string) (n : nat) :
  n <= String.length s -> String.length (substring 0 n s) = n.
Proof.
  revert s. induction n as [|n IH]; intros [|c s]; cbn; try lia.
  intros Hn. rewrite IH; lia.
Qed.

(** A title shorter than 80 bytes was not cut. *)
Lemma title_of_content_short (content : string) :
  len (assistant.title_of_content content) < 80 ->
  assistant.title_of_content content
  = Trim (ReplaceAll content LF " ") assistant.title_cutset.
Proof.
  unfold assistant.title_of_content.
  destruct (Nat.ltb_spec 80
              (len (Trim (ReplaceAll content LF " ")
                         assistant.title_cutset))) as [H|H]; [|reflexivity].
  unfold slice_to, len in *.
  rewrite substring_prefix_full_length by lia. lia.
Qed.

Lemma ReplaceAll_bytes (s : string) (old : ascii) (new : string) (c : ascii) :
  contains_byte (ReplaceAll s old new) c = true ->
  contains_byte new c = true \/ contains_byte s c = true.
Proof.
  induction s as [|d s IH]; cbn; [discriminate|].
  destruct (Ascii.eqb d old) eqn:E.
  - rewrite contains_byte_app. intros H.
    apply orb_true_iff in H as [H|H]; [now left|].
    destruct (IH H) as [?|Hs]; [now left|right]. now rewrite Hs, orb_true_r.
  - cbn. intros H. apply orb_true_iff in H as [H|H].
    + right. now rewrite H.
    + destruct (IH H) as [?|Hs]; [now left|right]. now rewrite Hs, orb_true_r.
Qed.

Lemma TrimRight_all (s cut : string) :
  (forall c, contains_byte s c = true -> inCutset cut c = true) ->
  TrimRight s cut = EmptyString.
Proof.
  induction s as [|d s IH]; intros H; cbn; [reflexivity|].
  rewrite IH.
  - rewrite (H d); [reflexivity|]. cbn. now rewrite Ascii.eqb_refl.
  - intros c Hc. apply H. cbn. now rewrite Hc, orb_true_r.
Qed.

(** A content made of trimmed bytes only gives the empty title. *)
Lemma title_of_trimmed_bytes (content : string) :
  (forall c, contains_byte content c = true ->
             inCutset assistant.title_cutset c = true) ->
  assistant.title_of_content content = EmptyString.
Proof.
  intros H. unfold assistant.title_of_content, Trim.
  rewrite TrimRight_all; [reflexivity|].
  intros c Hc. apply ReplaceAll_bytes in Hc as [Hc|Hc]; [|now apply H].
  cbn [contains_byte] in Hc. rewrite orb_false_r in Hc.
  apply Ascii.eqb_eq in Hc. subst c. reflexivity.
Qed.

End HistoryFacts.

Section TitleStatements.

Import strings.

Context {World : Type} (env : Env World).

(** The request [Title] sends for a conversation. *)
Lemma Title_run (conv : model.Conversation) (st : St World) :
  model.Messages conv <> [] ->
  assistant.Title env conv st
  = (let params :=
       {| openai.Model := openai.ChatModelGPT4o;
          openai.Messages :=
            openai.SystemMessage assistant.title_prompt
            :: map (fun m => openai.UserMessage (model.Content m))
                   (model.Messages conv);
          openai.Tools := [] |} in
     let (r, w) := Completions_New env params (world st) in
     (match r with
      | Err err => Err err
      | Ok resp =>
          match openai.Choices resp with
          | [] => Err (errors_New
                         "empty response from OpenAI for title generation")
          | choice :: _ =>
              if TrimSpace_is_empty (openai.Content (openai.Message choice))
              then Err (errors_New
                          "empty response from OpenAI for title generation")
              else Ok (assistant.title_of_content
                         (openai.Content (openai.Message choice)))
          end
      end,
      {| world := w; calls := calls st ++ [BackendCall params] |})).
Proof.
  intros Hne. unfold assistant.Title.
  destruct (model.Messages conv) as [|m ms] eqn:Em; [congruence|].
  cbn [List.length Nat.eqb app]. unfold bind, perform, ret. cbv zeta.
  destruct (Completions_New env _ (world st)) as [[resp|err] w]; [|reflexivity].
  destruct (openai.Choices resp) as [|choice others]; [reflexivity|].
  destruct (TrimSpace_is_empty _); reflexivity.
Qed.

(** X13.  On a conversation with messages, [Title] sends exactly one
    request, whatever comes of it: to the model gpt-4o, without tools, with
    the system prompt followed by the content of every message of the
    conversation as a user message, whatever the role of the message. *)
Theorem Title_sends_one_request (conv : model.Conversation) (st : St World) :
  model.Messages conv <> [] ->
  calls (snd (assistant.Title env conv st))
  = calls st
    ++ [BackendCall
          {| openai.Model := "gpt-4o";
             openai.Messages :=
               openai.SystemMessage assistant.title_prompt
               :: map (fun m => openai.UserMessage (model.Content m))
                      (model.Messages conv);
             openai.Tools := [] |}].
Proof.
  intros Hne. rewrite (Title_run conv st Hne). cbv zeta.
  destruct (Completions_New env _ (world st)) as [r w]. reflexivity.
Qed.

(** X14.  Every title [Title] returns for a conversation with messages has
    at most 80 bytes, contains no line feed, and does not start with a
    space, tab, carriage return, line feed, dash or quote; a title of fewer
    than 80 bytes does not end with one of these either. *)
Theorem Title_postconditions (conv : model.Conversation) (st st' : St World)
    (title : string) :
  model.Messages conv <> [] ->
  assistant.Title env conv st = (Ok title, st') ->
  len title <= 80
  /\ contains_byte title LF = false
  /\ (forall c, first_byte title = Some c ->
                inCutset assistant.title_cutset c = false)
  /\ (len title < 80 ->
      forall c, last_byte title = Some c ->
                inCutset assistant.title_cutset c = false).
Proof.
  intros Hne Ht.
  destruct (Title_success env conv st Hne Ht) as (content & _ & -> & _).
  split; [apply title_of_content_length|].
  split; [apply title_of_content_no_newline|].
  split; [intros c; apply title_of_content_first|].
  intros Hshort c. rewrite (title_of_content_short content Hshort).
  intros Hl. apply TrimLeft_last in Hl. now apply TrimRight_last in Hl.
Qed.

(** X15.  [Title] can succeed with an empty title: when the content the
    backend returns is not white space only but is made of trimmed bytes
    only (dashes and quotes, with or without white space), the check for an
    empty response passes and the trimming leaves nothing. *)
Theorem Title_can_be_empty (conv : model.Conversation) (st : St World)
    (resp : openai.ChatCompletion) (w1 : World)
    (choice : openai.Choice) (others : list openai.Choice) :
  model.Messages conv <> [] ->
  Completions_New env
    {| openai.Model := openai.ChatModelGPT4o;
       openai.Messages :=
         openai.SystemMessage assistant.title_prompt
         :: map (fun m => openai.UserMessage (model.Content m))
                (model.Messages conv);
       openai.Tools := [] |} (world st)
  = (Ok resp, w1) ->
  openai.Choices resp = choice :: others ->
  TrimSpace_is_empty (openai.Content (openai.Message choice)) = false ->
  (forall c, contains_byte (openai.Content (openai.Message choice)) c = true ->
             inCutset assistant.title_cutset c = true) ->
  fst (assistant.Title env conv st) = Ok EmptyString.
Proof.
  intros Hne Hresp Hchoices Hspace Hbytes.
  rewrite (Title_run conv st Hne). cbv zeta.
  rewrite Hresp, Hchoices, Hspace. cbn [fst].
  now rewrite title_of_trimmed_bytes.
Qed.

End TitleStatements.

Lemma Title_sends_one_request_witness :
  calls (snd (assistant.Title fixture.env
                {| model.Messages :=
                     [ {| model.Role_ := model.RoleUser;
                          model.Content := "What is quantum computing?" |};
                       {| model.Role_ := model.RoleAssistant;
                          model.Content := "Quantum computing is..." |} ] |}
                (fixture.start [])))
  = calls (fixture.start ([] : fixture.Script))
    ++ [BackendCall
          {| openai.Model := "gpt-4o";
             openai.Messages :=
               [ openai.SystemMessage assistant.title_prompt;
                 openai.UserMessage "What is quantum computing?";
                 openai.UserMessage "Quantum computing is..." ];
             openai.Tools := [] |}].
Proof.
  apply (@Title_sends_one_request _ fixture.env
           {| model.Messages :=
                [ {| model.Role_ := model.RoleUser;
                     model.Content := "What is quantum computing?" |};
                  {| model.Role_ := model.RoleAssistant;
                     model.Content := "Quantum computing is..." |} ] |}
           (fixture.start [])).
  discriminate.
Defined.

Lemma Title_postconditions_witness :
  len "Weather in Barcelona" <= 80
  /\ contains_byte "Weather in Barcelona" LF = false
  /\ (forall c, first_byte "Weather in Barcelona" = Some c ->
                inCutset assistant.title_cutset c = false)
  /\ (len "Weather in Barcelona" < 80 ->
      forall c, last_byte "Weather in Barcelona" = Some c ->
                inCutset assistant.title_cutset c = false).
Proof.
  apply (@Title_postconditions _ fixture.env
           (fixture.user_says "What is the weather like in Barcelona?")
           (fixture.start
              [Ok (fixture.text_response "'Weather in Barcelona' ")])
           {| world := [];
              calls :=
                [BackendCall
                   {| openai.Model := "gpt-4o";
                      openai.Messages :=
                        [ openai.SystemMessage assistant.title_prompt;
                          openai.UserMessage
                            "What is the weather like in Barcelona?" ];
                      openai.Tools := [] |}] |}
           "Weather in Barcelona").
  - discriminate.
  - reflexivity.
Defined.

Lemma Title_can_be_empty_witness :
  fst (assistant.Title fixture.env (fixture.user_says "Hello")
         (fixture.start [Ok (fixture.text_response "---")]))
  = Ok EmptyString.
Proof.
  apply (@Title_can_be_empty _ fixture.env (fixture.user_says "Hello")
           (fixture.start [Ok (fixture.text_response "---")])
           (fixture.text_response "---") []
           {| openai.Message :=
                {| openai.Content := "---"; openai.ToolCalls := [] |} |} []).
  - discriminate.
  - reflexivity.
  - reflexivity.
  - reflexivity.
  - intros c Hc. cbn [openai.Content openai.Message contains_byte] in Hc.
    rewrite !orb_false_r, !orb_diag in Hc.
    apply Ascii.eqb_eq in Hc. subst c. reflexivity.
Defined.

(** ** Tool calls and the loop *)

Section MoreLoopFacts.

Context {World : Type} (env : Env World).

Lemma histories_app (evs evs' : list Event) :
  histories (evs ++ evs') = histories evs ++ histories evs'.
Proof.
  induction evs as [|[p|name args] rest IH]; cbn; [reflexivity| |exact IH].
  now rewrite IH.
Qed.

Lemma histories_tool_events (evs : list Event) :
  tool_events evs -> histories evs = [].
Proof.
  induction 1 as [|[p|name args] rest Hev _ IH]; cbn; try discriminate; auto.
Qed.

Lemma request_of_Messages (v : Version World)
    (msgs : list openai.MessageParam) :
  openai.Messages (request_of v msgs) = msgs.
Proof.
  destruct v; reflexivity.
Qed.

Lemma requests_of_version_tool_events (v : Version World) (evs : list Event) :
  tool_events evs -> requests_of_version v evs.
Proof.
  unfold requests_of_version.
  induction 1 as [|[p|name args] rest Hev _ IH]; cbn; try discriminate;
    constructor; auto.
Qed.

Lemma growing_weaken (previous more : list openai.MessageParam)
    (hs : list (list openai.MessageParam)) :
  growing (previous ++ more) hs -> growing previous hs.
Proof.
  destruct hs as [|h rest]; cbn; [auto|].
  intros [[more' ->] Hrest]. split; [|exact Hrest].
  exists (more ++ more'). now rewrite app_assoc.
Qed.

(** When the inner loop of the [switch] version ends without an error, the
    history it returns extends the one it started from. *)
Lemma tool_calls_loop_extends (tool_calls : list openai.ToolCall) :
  forall (msgs msgs' : list openai.MessageParam) (st st' : St World),
    assistant.tool_calls_loop env tool_calls msgs st = (Ok msgs', st') ->
    exists results, msgs' = msgs ++ results.
Proof.
  induction tool_calls as [|call rest IH]; intros msgs msgs' st st'.
  - cbn. unfold ret. intros Heq. inversion Heq; subst.
    exists []. now rewrite app_nil_r.
  - cbn [assistant.tool_calls_loop]. unfold bind at 1.
    destruct (switch_case (openai.Function_Name call)) eqn:Hcall.
    + destruct (tool_call_switch_case env call msgs st Hcall)
        as (content & evs1 & st1 & E1 & _ & _).
      rewrite E1. intros Hrest.
      destruct (IH _ _ _ _ Hrest) as [results ->].
      eexists. now rewrite <- app_assoc.
    + rewrite (tool_call_switch_default env call msgs st Hcall).
      unfold ret. discriminate.
Qed.

Lemma carry_out_extends (v : Version World) (tool_calls : list openai.ToolCall)
    (msgs msgs' : list openai.MessageParam) (st st' : St World) :
  carry_out env v tool_calls msgs st = (Ok msgs', st') ->
  exists results, msgs' = msgs ++ results.
Proof.
  destruct v as [|a_tools]; cbn [carry_out].
  - apply tool_calls_loop_extends.
  - destruct (dispatch_loop_answers a_tools tool_calls msgs st)
      as (results & evs & st1 & E & _ & _ & _).
    unfold bind, ret. rewrite E. intros Heq. inversion Heq; subst.
    now exists results.
Qed.

(** The requests of the loop: each is the request of the version for its
    history, the first history is the one the loop starts from, and each
    history extends the one before. *)
Lemma reply_loop_histories (v : Version World) (n : nat) :
  forall (msgs : list openai.MessageParam) (st : St World),
  exists evs,
    calls (snd (reply_loop_of env v n msgs st)) = calls st ++ evs
    /\ requests_of_version v evs
    /\ growing msgs (histories evs)
    /\ (n <> 0 -> exists later, histories evs = msgs :: later).
Proof.
  induction n as [|n IH]; intros msgs st.
  - exists []. destruct v; cbn; rewrite app_nil_r;
      repeat split; try constructor; congruence.
  - rewrite reply_loop_of_S. unfold bind at 1, perform at 1.
    assert (Hone : requests_of_version v [BackendCall (request_of v msgs)]).
    { repeat constructor. now rewrite request_of_Messages. }
    assert (Hstop : forall (r : result string) (w1 : World),
               exists evs,
                 calls (snd (r, {| world := w1;
                                   calls := calls st
                                            ++ [BackendCall (request_of v msgs)] |}))
                 = calls st ++ evs
                 /\ requests_of_version v evs
                 /\ growing msgs (histories evs)
                 /\ (S n <> 0 -> exists later, histories evs = msgs :: later)).
    { intros r w1. exists [BackendCall (request_of v msgs)].
      cbn [snd calls histories growing]. rewrite request_of_Messages.
      repeat split; auto.
      - exists []. now rewrite app_nil_r.
      - now exists []. }
    destruct (Completions_New env _ (world st)) as [[resp|err] w1];
      [|apply Hstop].
    destruct (openai.Choices resp) as [|choice others]; [apply Hstop|].
    destruct (Nat.ltb _ _); [|apply Hstop].
    unfold bind at 1.
    destruct (carry_out env v _ _ _) as [[msgs'|err] st'] eqn:E;
      destruct (@carry_out_events _ env _ _ _ _ _ _ E) as (evs1 & C1 & T1);
      cbn [calls] in C1.
    + destruct (@carry_out_extends _ _ _ _ _ _ E) as [results ->].
      destruct (IH ((msgs ++ [openai.ToParam (openai.Message choice)])
                    ++ results) st')
        as (evs2 & C2 & R2 & G2 & _).
      exists ([BackendCall (request_of v msgs)] ++ evs1 ++ evs2).
      rewrite C2, C1, <- !app_assoc.
      split; [reflexivity|].
      split.
      { apply Forall_app. split; [exact Hone|].
        apply Forall_app. split; [|exact R2].
        now apply requests_of_version_tool_events. }
      rewrite !histories_app, (histories_tool_events T1).
      cbn [histories app]. rewrite request_of_Messages.
      split.
      { cbn [growing]. split; [exists []; now rewrite app_nil_r|].
        rewrite <- app_assoc in G2. now apply growing_weaken in G2. }
      intros _. eexists. reflexivity.
    + exists ([BackendCall (request_of v msgs)] ++ evs1).
      unfold ret. cbn [snd]. rewrite C1, <- !app_assoc.
      split; [reflexivity|].
      split.
      { apply Forall_app. split; [exact Hone|].
        now apply requests_of_version_tool_events. }
      rewrite histories_app, (histories_tool_events T1).
      cbn [histories app growing]. rewrite request_of_Messages.
      repeat split; auto.
      * exists []. now rewrite app_nil_r.
      * intros _. now exists [].
Qed.

(** The first tool of the requested name is run; its result is the content
    of the tool message. *)
Lemma dispatch_scan_success (before : list (@tools.Tool World))
    (tool : @tools.Tool World) (after : list (@tools.Tool World))
    (call : openai.ToolCall) (functionName arguments : string)
    (st : St World) (res : string) (w' : World) :
  tool_named before functionName = false ->
  tools.Name tool = functionName ->
  tools.Handle tool arguments (world st) = (Ok res, w') ->
  tools.dispatch_scan (before ++ tool :: after) call functionName arguments st
  = (openai.ToolMessage res (openai.ID call),
     after_run st w' functionName arguments).
Proof.
  intros Hbefore Hname Hrun.
  induction before as [|b rest IH]; cbn [app tools.dispatch_scan].
  - rewrite Hname, String.eqb_refl. unfold bind, perform, ret; cbv beta.
    now rewrite Hrun.
  - cbn [tool_named existsb] in Hbefore.
    apply orb_false_iff in Hbefore as [H1 H2].
    rewrite H1. now apply IH.
Qed.



End MoreLoopFacts.

Section LoopStatements.

Context {World : Type} (env : Env World).

(** X16.  In any iteration of the loop (of either version), an error of the
    backend ends [Reply] with that very error, not wrapped; the request that
    failed is the last call made. *)
Theorem backend_error_ends_reply (v : Version World) (n : nat)
    (msgs : list openai.MessageParam) (st : St World)
    (err : error) (w1 : World) :
  Completions_New env (request_of v msgs) (world st) = (Err err, w1) ->
  reply_loop_of env v (S n) msgs st
  = (Err err,
     {| world := w1;
        calls := calls st ++ [BackendCall (request_of v msgs)] |}).
Proof.
  apply reply_loop_backend_error.
Qed.

(** X17.  In any iteration of the loop (of either version), a response
    without choices ends [Reply] with the error "no choices returned by
    OpenAI"; the request that brought it is the last call made. *)
Theorem no_choices_ends_reply (v : Version World) (n : nat)
    (msgs : list openai.MessageParam) (st : St World)
    (resp : openai.ChatCompletion) (w1 : World) :
  Completions_New env (request_of v msgs) (world st) = (Ok resp, w1) ->
  openai.Choices resp = [] ->
  reply_loop_of env v (S n) msgs st
  = (Err (errors_New "no choices returned by OpenAI"),
     {| world := w1;
        calls := calls st ++ [BackendCall (request_of v msgs)] |}).
Proof.
  apply reply_loop_no_choices.
Qed.

(** X18.  The history only grows.  In a run of [Reply] (of either version)
    on a conversation with messages, every request is made with the same
    model and the same tools, the first request carries the seeded history,
    and the history of every later request extends that of the request
    before it; there are at most 15 requests. *)
Theorem Reply_histories_grow (v : Version World) (conv : model.Conversation)
    (st : St World) :
  model.Messages conv <> [] ->
  exists evs later,
    calls (snd (Reply_of env v conv st)) = calls st ++ evs
    /\ requests_of_version v evs
    /\ histories evs = assistant.seed_history conv :: later
    /\ growing (assistant.seed_history conv) later
    /\ List.length (histories evs) <= 15.
Proof.
  intros Hne. rewrite (Reply_of_loop env v conv st Hne).
  destruct (reply_loop_histories env v 15 (assistant.seed_history conv) st)
    as (evs & C & R & G & F).
  destruct F as [later Hl]; [discriminate|].
  destruct (reply_loop_extends env v 15 (assistant.seed_history conv) st)
    as (evs' & C' & B).
  rewrite C in C'. apply app_inv_head in C'. subst evs'.
  exists evs, later. rewrite Hl in G. cbn [growing] in G.
  repeat split; try tauto.
  assert (Hlen : forall l, List.length (histories l) = backend_calls l).
  { unfold backend_calls.
    induction l as [|[p|name args] rest IH]; cbn; lia. }
  rewrite Hlen. exact B.
Qed.

(** X19.  The tools advertised to the model are the tools that can be
    carried out.  In assistant.go with the [switch], a name is advertised
    exactly when it has a case.  With the tools [New] sets, a name is in
    the definitions exactly when [Dispatch] finds a tool for it, and no two
    tools share a name. *)
Theorem advertised_tools_are_carried_out :
  (forall name,
      In name (map openai.Name assistant.reply_tools)
      <-> switch_case name = true)
  /\ (forall name,
         In name (map openai.Name
                    (tools.Definitions (assistant_tools.New_tools env)))
         <-> tool_named (assistant_tools.New_tools env) name = true)
  /\ NoDup (map (@tools.Name World) (assistant_tools.New_tools env)).
Proof.
  split; [|split].
  - intros name. split.
    + cbn. intros [ <- | [ <- | [ <- | [] ] ] ]; reflexivity.
    + intros H. destruct (switch_case_names _ H) as [-> | [-> | ->]]; cbn; auto.
  - intros name. cbn [assistant_tools.New_tools tools.Definitions map
                      tools.Definition_ tools.WeatherTool tools.DateTool
                      tools.HolidaysTool tools.TimeZoneTool openai.Name
                      tool_named existsb tools.Name].
    split.
    + intros [ <- | [ <- | [ <- | [ <- | [] ] ] ] ]; reflexivity.
    + intros H.
      destruct (String.eqb_spec "get_weather" name); [cbn; auto|].
      destruct (String.eqb_spec "get_today_date" name); [cbn; auto|].
      destruct (String.eqb_spec "get_holidays" name); [cbn; auto|].
      destruct (String.eqb_spec "convert_timezone" name); [cbn; auto 6|].
      discriminate.
  - cbn. repeat constructor; cbn; intuition discriminate.
Qed.

(** X20.  [Dispatch] runs the first tool that has the requested name and
    no other; when that tool succeeds, its result is the content of the
    tool message, unchanged, with the id of the call. *)
Theorem Dispatch_success (before : list (@tools.Tool World))
    (tool : @tools.Tool World) (after : list (@tools.Tool World))
    (call : openai.ToolCall) (name args : string) (st : St World)
    (res : string) (w' : World) :
  requested call name args ->
  tool_named before name = false ->
  tools.Name tool = name ->
  tools.Handle tool args (world st) = (Ok res, w') ->
  tools.Dispatch (before ++ tool :: after) call st
  = (openai.ToolMessage res (openai.ID call), after_run st w' name args).
Proof.
  intros Hreq Hbefore Hname Hrun.
  rewrite (Dispatch_requested _ st Hreq).
  now apply dispatch_scan_success.
Qed.

(** X21.  A call whose type is neither "function" nor "custom" is answered
    with the tool message "Unknown tool call type: " and the type; no tool
    is looked up or run. *)
Theorem Dispatch_unknown_type (a_tools : list (@tools.Tool World))
    (call : openai.ToolCall) (st : St World) :
  openai.Type_ call <> "function" ->
  openai.Type_ call <> "custom" ->
  tools.Dispatch a_tools call st
  = (openai.ToolMessage
       ("Unknown tool call type: " ++ openai.Type_ call)%string
       (openai.ID call), st).
Proof.
  intros Hf Hc. unfold tools.Dispatch.
  destruct (String.eqb_spec (openai.Type_ call) "function"); [contradiction|].
  destruct (String.eqb_spec (openai.Type_ call) "custom"); [contradiction|].
  reflexivity.
Qed.


(** X23.  On success the two versions give the same answer.  For a call of
    type "function" for the weather or the date tool: when the tool's
    [Handle] succeeds, [Dispatch] over the tools of [New] and the [switch]
    of assistant.go append the same tool message and leave the same
    state. *)
Theorem versions_agree_on_success (call : openai.ToolCall)
    (tool : @tools.Tool World) (st : St World) (res : string) (w' : World) :
  tool = tools.WeatherTool env \/ tool = tools.DateTool env ->
  openai.Type_ call = "function" ->
  openai.Function_Name call = tools.Name tool ->
  tools.Handle tool (openai.Function_Arguments call) (world st)
  = (Ok res, w') ->
  tools.Dispatch (assistant_tools.New_tools env) call st
  = (openai.ToolMessage res (openai.ID call),
     after_run st w' (tools.Name tool) (openai.Function_Arguments call))
  /\ forall msgs,
       assistant.tool_call_switch env call msgs st
       = (Ok (msgs ++ [openai.ToolMessage res (openai.ID call)]),
          after_run st w' (tools.Name tool) (openai.Function_Arguments call)).
Proof.
  intros Htool Htype Hname Hrun. split.
  - assert (Hreq : requested call (tools.Name tool)
                     (openai.Function_Arguments call)).
    { left. auto. }
    rewrite (Dispatch_requested _ st Hreq).
    destruct Htool as [-> | ->].
    + now apply (dispatch_scan_success [] (tools.WeatherTool env)).
    + now apply (dispatch_scan_success [tools.WeatherTool env]
                   (tools.DateTool env)).
  - intros msgs. unfold assistant.tool_call_switch. rewrite Hname.
    destruct Htool as [-> | ->];
      cbn [tools.Name tools.WeatherTool tools.DateTool tools.Handle
           String.eqb Ascii.eqb Bool.eqb] in *.
    + unfold tools.WeatherTool_Handle in Hrun.
      destruct (json_Unmarshal_weather env _) as [a|e]; [|discriminate].
      unfold bind, perform, ret in *. cbv beta.
      destruct (Z.ltb 0 (ForecastDays a)).
      * destruct (GetForecast env _ _ (world st)) as [[f|e] w1];
          inversion Hrun; reflexivity.
      * destruct (GetCurrentWeather env _ (world st)) as [[f|e] w1];
          inversion Hrun; reflexivity.
    + unfold tools.DateTool_Handle, bind, perform, ret in *. cbv beta.
      destruct (Now_RFC3339 env (world st)) as [now w1].
      inversion Hrun; reflexivity.
Qed.

End LoopStatements.

Section HolidayStatements.

Import strings.

Context {World : Type} (env : Env World).






End HolidayStatements.



Lemma backend_error_ends_reply_witness :
  reply_loop_of fixture.env WithSwitch 15 fixture.asks_weather
    (fixture.start [])
  = (Err (external "connection refused"),
     {| world := [];
        calls := [BackendCall
                    (request_of (@WithSwitch fixture.Script)
                       fixture.asks_weather)] |}).
Proof.
  apply (@backend_error_ends_reply _ fixture.env WithSwitch 14
           fixture.asks_weather (fixture.start [])
           (external "connection refused") []).
  reflexivity.
Defined.

Lemma no_choices_ends_reply_witness :
  reply_loop_of fixture.env WithSwitch 15 fixture.asks_weather
    (fixture.start [Ok {| openai.Choices := [] |}])
  = (Err (errors_New "no choices returned by OpenAI"),
     {| world := [];
        calls := [BackendCall
                    (request_of (@WithSwitch fixture.Script)
                       fixture.asks_weather)] |}).
Proof.
  apply (@no_choices_ends_reply _ fixture.env WithSwitch 14
           fixture.asks_weather
           (fixture.start [Ok {| openai.Choices := [] |}])
           {| openai.Choices := [] |} []).
  - reflexivity.
  - reflexivity.
Defined.

Lemma Reply_histories_grow_witness :
  exists evs later,
    calls (snd (Reply_of fixture.env WithSwitch
                  (fixture.user_says "What is the weather in Barcelona?")
                  (fixture.start fixture.two_calls_then_text)))
    = calls (fixture.start fixture.two_calls_then_text) ++ evs
    /\ requests_of_version (@WithSwitch fixture.Script) evs
    /\ histories evs
       = assistant.seed_history
           (fixture.user_says "What is the weather in Barcelona?")
         :: later
    /\ growing
         (assistant.seed_history
            (fixture.user_says "What is the weather in Barcelona?"))
         later
    /\ List.length (histories evs) <= 15.
Proof.
  apply (@Reply_histories_grow _ fixture.env WithSwitch
           (fixture.user_says "What is the weather in Barcelona?")
           (fixture.start fixture.two_calls_then_text)).
  discriminate.
Defined.

Lemma Dispatch_success_witness :
  tools.Dispatch (assistant_tools.New_tools fixture.env)
    (fixture.function_call "call_2" "get_today_date" "") (fixture.start [])
  = (openai.ToolMessage "2025-12-07T15:30:00Z" "call_2",
     after_run (fixture.start []) [] "get_today_date" "").
Proof.
  apply (@Dispatch_success _ [tools.WeatherTool fixture.env]
           (tools.DateTool fixture.env)
           [tools.HolidaysTool fixture.env; tools.TimeZoneTool fixture.env]
           (fixture.function_call "call_2" "get_today_date" "")
           "get_today_date" "" (fixture.start [])
           "2025-12-07T15:30:00Z" []).
  - left. repeat split.
  - reflexivity.
  - reflexivity.
  - reflexivity.
Defined.

Lemma Dispatch_unknown_type_witness :
  tools.Dispatch (assistant_tools.New_tools fixture.env)
    {| openai.ID := "call_9";
       openai.Type_ := "mcp";
       openai.Function_Name := "get_weather";
       openai.Function_Arguments := "Barcelona";
       openai.Custom_Name := "";
       openai.Custom_Input := "" |}
    (fixture.start [])
  = (openai.ToolMessage "Unknown tool call type: mcp" "call_9",
     fixture.start []).
Proof.
  apply (@Dispatch_unknown_type _ (assistant_tools.New_tools fixture.env)
           {| openai.ID := "call_9";
              openai.Type_ := "mcp";
              openai.Function_Name := "get_weather";
              openai.Function_Arguments := "Barcelona";
              openai.Custom_Name := "";
              openai.Custom_Input := "" |}
           (fixture.start [])).
  - discriminate.
  - discriminate.
Defined.

Lemma versions_agree_on_success_witness :
  tools.Dispatch (assistant_tools.New_tools fixture.env)
    (fixture.function_call "call_1" "get_weather" "Barcelona")
    (fixture.start [])
  = (openai.ToolMessage "Sunny in Barcelona" "call_1",
     after_run (fixture.start []) [] "get_weather" "Barcelona")
  /\ forall msgs,
       assistant.tool_call_switch fixture.env
         (fixture.function_call "call_1" "get_weather" "Barcelona") msgs
         (fixture.start [])
       = (Ok (msgs ++ [openai.ToolMessage "Sunny in Barcelona" "call_1"]),
          after_run (fixture.start []) [] "get_weather" "Barcelona").
Proof.
  apply (@versions_agree_on_success _ fixture.env
           (fixture.function_call "call_1" "get_weather" "Barcelona")
           (tools.WeatherTool fixture.env) (fixture.start [])
           "Sunny in Barcelona" []).
  - left. reflexivity.
  - reflexivity.
  - reflexivity.
  - reflexivity.
Defined.

(** ** Start and shutdown of the telemetry providers *)

Section InitStatements.

Import telemetry_init.

Variable sdk : Sdk.

(** X25.  [InitTelemetry] leaves no provider running when it fails.  If the
    metrics exporter cannot be made, nothing is set.  If the trace exporter
    cannot be made, the meter provider that was already set is shut down
    before the error of the trace exporter is returned (the error of that
    shutdown, if any, is dropped). *)
Theorem InitTelemetry_failure_cleans_up (log log' : list Action)
    (err : error) :
  InitTelemetry sdk log = (Err err, log') ->
  (stdoutmetric_New sdk = Some err /\ log' = log)
  \/ (stdoutmetric_New sdk = None
      /\ stdouttrace_New sdk = Some err
      /\ log' = log ++ [SetMeterProvider; MeterProvider_Shutdown]).
Proof.
  unfold InitTelemetry, InitMetrics, InitTracing, bind, ret, act.
  destruct (stdoutmetric_New sdk) as [e1|].
  - intros Heq. inversion Heq; subst. now left.
  - destruct (stdouttrace_New sdk) as [e2|]; [|discriminate].
    intros Heq. inversion Heq; subst. right.
    repeat split. now rewrite <- app_assoc.
Qed.

(** X26.  The shutdown function [InitTelemetry] returns shuts down both
    providers, the meter provider first, also when the first shutdown
    fails; it returns the error of the meter provider if there is one and
    the result of the tracer provider otherwise. *)
Theorem InitTelemetry_shutdown_both (log log' : list Action)
    (shutdown : Shutdown) (later : list Action) :
  InitTelemetry sdk log = (Ok shutdown, log') ->
  log' = log ++ [SetMeterProvider; SetTracerProvider]
  /\ shutdown later
     = (match meter_Shutdown sdk with
        | Some err => Some err
        | None => tracer_Shutdown sdk
        end,
        later ++ [MeterProvider_Shutdown; TracerProvider_Shutdown]).
Proof.
  unfold InitTelemetry, InitMetrics, InitTracing, bind, ret, act.
  destruct (stdoutmetric_New sdk) as [e1|]; [discriminate|].
  destruct (stdouttrace_New sdk) as [e2|]; [discriminate|].
  intros Heq. inversion Heq; subst.
  split; [now rewrite <- app_assoc|].
  destruct (meter_Shutdown sdk); now rewrite <- app_assoc.
Qed.

End InitStatements.

Lemma InitTelemetry_failure_cleans_up_witness :
  telemetry_init.InitTelemetry doubles.sdk_without_traces []
  = (Err (external "cannot open stdout"),
     [telemetry_init.SetMeterProvider; telemetry_init.MeterProvider_Shutdown])
  /\ ((telemetry_init.stdoutmetric_New doubles.sdk_without_traces
       = Some (external "cannot open stdout")
       /\ [telemetry_init.SetMeterProvider;
           telemetry_init.MeterProvider_Shutdown] = [])
      \/ (telemetry_init.stdoutmetric_New doubles.sdk_without_traces = None
          /\ telemetry_init.stdouttrace_New doubles.sdk_without_traces
             = Some (external "cannot open stdout")
          /\ [telemetry_init.SetMeterProvider;
              telemetry_init.MeterProvider_Shutdown]
             = [] ++ [telemetry_init.SetMeterProvider;
                      telemetry_init.MeterProvider_Shutdown])).
Proof.
  split; [reflexivity|].
  apply (@InitTelemetry_failure_cleans_up doubles.sdk_without_traces []
           [telemetry_init.SetMeterProvider;
            telemetry_init.MeterProvider_Shutdown]
           (external "cannot open stdout")).
  reflexivity.
Defined.

Lemma InitTelemetry_shutdown_both_witness :
  exists shutdown,
    telemetry_init.InitTelemetry doubles.sdk_flush_fails []
    = (Ok shutdown,
       [telemetry_init.SetMeterProvider; telemetry_init.SetTracerProvider])
    /\ shutdown []
       = (Some (external "flush failed"),
          [telemetry_init.MeterProvider_Shutdown;
           telemetry_init.TracerProvider_Shutdown]).
Proof.
  eexists. split; [reflexivity|].
  apply (@InitTelemetry_shutdown_both doubles.sdk_flush_fails []
           [telemetry_init.SetMeterProvider; telemetry_init.SetTracerProvider]
           _ []).
  reflexivity.
Defined.
